(** * Wordlist generation engine: PatternGenerator and DictionaryGenerator

    A shallow embedding of [dictionary_generator/patterns.py],
    [dictionary_generator/generator.py] and the tables of [config.py]
    they read, followed by the properties of the generation engine.

    Conventions of the embedding:
    - a Python [str] is a [string] of 8-bit characters; [lower], [upper]
      and [isspace] act on the ASCII range, other characters are left as
      they are;
    - a Python [int] is a [Z];
    - the candidate [set] is a [gset string]; where the source turns a set
      into a list and the order matters ([save_to_file]), the iteration
      order is an explicit argument, constrained only to be a permutation
      of the set; where the list is only added to a set again, [elements]
      stands for it;
    - a loop that appends to a list is a [foldl] over the iterated
      sequence; a loop that calls [add_word] is a [foldl] over the
      generator state;
    - [print] calls write to the console only and are left out. *)

From Stdlib Require Import Ascii.
From Stdlib Require QArith_base.
From stdpp Require Import gmap strings list sorting.

#[local] Set Warnings "-clear-no-such-hyp".

(** ** Python built-ins used by the source *)

Module Py.

(** The outcome of a call: it returns a value or raises. *)
Inductive exn : Set :=
  | InvalidRangeError
  | OtherError.

Inductive outcome (A : Type) : Type :=
  | Returns (a : A)
  | Raises (e : exn).
Global Arguments Returns {A} a.
Global Arguments Raises {A} e.

(** [range(lo, hi)] over integers: empty when [hi <= lo]. *)
Definition range (lo hi : Z) : list Z := seqZ lo (hi - lo).

Definition digit_char (d : Z) : ascii :=
  Ascii.ascii_of_N (48 + Z.to_N d).

(** Decimal digits of a non-negative integer, most significant first,
    pushed in front of [acc].  The number of decimal digits of [n] is at
    most its number of bits, which is what the callers pass as fuel. *)
Fixpoint str_digits (fuel : nat) (n : Z) (acc : string) : string :=
  match fuel with
  | O => acc
  | S fuel' =>
      let acc' := String (digit_char (n `mod` 10)) acc in
      if (n `div` 10 =? 0)%Z then acc' else str_digits fuel' (n `div` 10) acc'
  end.

(** [str(z)] for an integer. *)
Definition str (z : Z) : string :=
  if (z <? 0)%Z
  then String "-" (str_digits (S (Z.to_nat (Z.log2 (- z)))) (- z) "")
  else str_digits (S (Z.to_nat (Z.log2 z))) z "".

(** [s[n:]] for [n >= 0]. *)
Fixpoint drop (n : nat) (s : string) : string :=
  match n, s with
  | O, _ => s
  | S _, "" => ""
  | S n', String _ s' => drop n' s'
  end.

(** [f"{z:02d}"]: zero padding to width two; a sign counts for the
    width, so only the one-character results, the digits 0 to 9, are
    padded. *)
Definition format_02d (z : Z) : string :=
  let s := str z in
  if (String.length s <? 2)%nat then String "0" s else s.

(** ASCII letter case: [str.lower], [str.upper], [str.capitalize]. *)
Definition is_upper (c : ascii) : bool :=
  let n := N_of_ascii c in (65 <=? n)%N && (n <=? 90)%N.
Definition is_lower (c : ascii) : bool :=
  let n := N_of_ascii c in (97 <=? n)%N && (n <=? 122)%N.

Definition lower_char (c : ascii) : ascii :=
  if is_upper c then ascii_of_N (N_of_ascii c + 32) else c.
Definition upper_char (c : ascii) : ascii :=
  if is_lower c then ascii_of_N (N_of_ascii c - 32) else c.

Fixpoint map_chars (f : ascii → ascii) (s : string) : string :=
  match s with
  | "" => ""
  | String c s' => String (f c) (map_chars f s')
  end.

Definition lower (s : string) : string := map_chars lower_char s.
Definition upper (s : string) : string := map_chars upper_char s.

Definition capitalize (s : string) : string :=
  match s with
  | "" => ""
  | String c s' => String (upper_char c) (lower s')
  end.

(** [c in s] for a one-character string [c]. *)
Fixpoint contains (c : ascii) (s : string) : bool :=
  match s with
  | "" => false
  | String c' s' => if decide (c' = c) then true else contains c s'
  end.

(** [s.replace(old, new)] for a one-character [old]: every occurrence is
    replaced in one pass, the inserted text is not scanned again. *)
Fixpoint replace (old : ascii) (new : string) (s : string) : string :=
  match s with
  | "" => ""
  | String c s' =>
      if decide (c = old) then new +:+ replace old new s'
      else String c (replace old new s')
  end.

(** [str.isspace] on the ASCII range, and [str.strip]. *)
Definition isspace (c : ascii) : bool :=
  let n := N_of_ascii c in
  ((9 <=? n)%N && (n <=? 13)%N) || ((28 <=? n)%N && (n <=? 32)%N).

Fixpoint lstrip (s : string) : string :=
  match s with
  | "" => ""
  | String c s' => if isspace c then lstrip s' else s
  end.

Fixpoint rstrip (s : string) : string :=
  match s with
  | "" => ""
  | String c s' =>
      match rstrip s' with
      | "" => if isspace c then "" else String c ""
      | r => String c r
      end
  end.

Definition strip (s : string) : string := rstrip (lstrip s).

(** Truth value of a string: non-empty. *)
Definition truthy (s : string) : bool :=
  match s with "" => false | _ => true end.

Definition newline : string := String "010"%char "".

(** [s[:n]] for [n >= 0]. *)
Fixpoint take (n : nat) (s : string) : string :=
match n, s with
| O, _ => ""
| S _, "" => ""
| S n', String c s' => String c (take n' s')
end.

(** [s[i:j]] for indices [0 <= i] and [0 <= j]: the characters from
    position [i] up to, not including, position [j]. *)
Definition slice (i j : Z) (s : string) : string :=
take (Z.to_nat j - Z.to_nat i) (drop (Z.to_nat i) s).

(** [s * n]: [n] copies of [s], none when [n <= 0]. *)
Fixpoint repeat_copies (s : string) (n : nat) : string :=
match n with
| O => ""
| S n' => s +:+ repeat_copies s n'
end.

Definition mul (s : string) (n : Z) : string := repeat_copies s (Z.to_nat n).

(** [''.join(parts)] *)
Definition join (parts : list string) : string := foldr String.append "" parts.

(** [min(xs)] and [max(xs)] of a sequence with first element [x]. *)
Definition min_from (x : Z) (xs : list Z) : Z := foldl Z.min x xs.
Definition max_from (x : Z) (xs : list Z) : Z := foldl Z.max x xs.

(** [sum(xs)] *)
Definition sum (xs : list Z) : Z := foldl Z.add 0%Z xs.

End Py.

(** ** config.py: the tables the engine reads *)

Module config.

Definition DEFAULT_START_YEAR : Z := 1990.
Definition DEFAULT_END_YEAR : Z := 2024.

Definition COMMON_PASSWORDS : list string :=
  [ "password"; "123456"; "password123"; "admin"; "letmein";
    "welcome"; "monkey"; "dragon"; "master"; "sunshine";
    "princess"; "qwerty"; "abc123"; "111111"; "iloveyou";
    "admin123"; "password1"; "12345678"; "123456789"; "1234567890" ].

Definition KEYBOARD_PATTERNS : list string :=
  [ "qwerty"; "qwertyuiop"; "asdfgh"; "asdfghjkl"; "zxcvbn";
    "1qaz2wsx"; "qazwsx"; "123qwe"; "1q2w3e4r"; "qweasd";
    "!qaz@wsx"; "1234"; "12345"; "123456"; "1234567"; "12345678" ].

(** The dictionary in insertion order, which is the order [items()]
    iterates in.  The keys are one-character strings and are held as
    characters. *)
Definition LEET_SPEAK_MAP : list (ascii * list string) :=
  [ ("a"%char, ["a"; "@"; "4"]);
    ("e"%char, ["e"; "3"]);
    ("i"%char, ["i"; "1"; "!"]);
    ("o"%char, ["o"; "0"]);
    ("s"%char, ["s"; "$"; "5"]);
    ("t"%char, ["t"; "7"]);
    ("l"%char, ["l"; "1"]);
    ("g"%char, ["g"; "9"]);
    ("b"%char, ["b"; "8"]) ].

Definition SPECIAL_CHARACTERS : list string :=
  [ "!"; "@"; "#"; "$"; "%"; "&"; "*"; "?" ].

(** The module's [globals()], a dictionary from names to values of any
    kind [V], as the three helper functions see it. *)
Definition get_config_value {V} (globals : gmap string V)
    (key : string) (default : V) : V :=
match globals !! key with
| Some value => value
| None => default
end.

Definition set_config_value {V} (key : string) (value : V)
    (globals : gmap string V) : gmap string V :=
<[key := value]> globals.

(** [load_custom_config]: [parsed] is the list of items of the dictionary
    that [json.load] returns, in iteration order, or [None] when opening,
    parsing or calling [items()] raises; the handler leaves the globals as
    they are. *)
Definition load_custom_config {V} (parsed : option (list (string * V)))
    (globals : gmap string V) : gmap string V :=
match parsed with
| None => globals
| Some custom_config =>
    foldl (λ globals '(key, value),
             if decide (is_Some (globals !! key))
             then <[key := value]> globals
             else globals)
          globals custom_config
end.

End config.

(** ** patterns.py: PatternGenerator *)

Module PatternGenerator.

(** [generate_year_patterns]: two appends per year of
    [range(start_year, end_year + 1)]. *)
Definition generate_year_patterns (start_year end_year : Z) : list string :=
  foldl (λ years year,
           (years ++ [Py.str year]) ++ [Py.drop 2 (Py.str year)])
        [] (Py.range start_year (end_year + 1)).

(** What a caller of [generate_year_patterns] observes.  The body has no
    [raise]; [range], [str], slicing and [append] do not raise on
    integers, so every call returns. *)
Definition call_generate_year_patterns (start_year end_year : Z)
  : Py.outcome (list string) :=
  Py.Returns (generate_year_patterns start_year end_year).

(** [generate_leet_speak_patterns]: the original word, then for every
    key of the map that occurs in the lowercased word one variant per
    replacement after the first. *)
Definition generate_leet_speak_patterns (word : string) : list string :=
  let variations := [word] in
  let word_lower := Py.lower word in
  let leet_map := config.LEET_SPEAK_MAP in
  foldl (λ variations '(char, replacements),
           if Py.contains char word_lower
           then foldl (λ variations replacement,
                         let variant := Py.replace char replacement word_lower in
                         variations ++ [variant])
                      variations (tail replacements)
           else variations)
        variations leet_map.

(** The generator expression of the alternating form, [i] being the
    index [enumerate] has reached. *)
Fixpoint alternating_from (i : nat) (word : string) : string :=
  match word with
  | "" => ""
  | String c word' =>
      String (if Nat.even i then Py.upper_char c else Py.lower_char c)
             (alternating_from (S i) word')
  end.

Definition generate_case_variations (word : string) : list string :=
  let variations := [] in
  let variations := variations ++ [Py.lower word] in
  let variations := variations ++ [Py.upper word] in
  let variations := variations ++ [Py.capitalize word] in
  if (String.length word <=? 10)%nat
  then variations ++ [alternating_from 0 word]
  else variations.

Definition generate_special_char_variations (word : string) : list string :=
  let special_chars := config.SPECIAL_CHARACTERS in
  foldl (λ variations char,
           (variations ++ [word +:+ char]) ++ [char +:+ word])
        [] special_chars.

(** [generate_word_number_combinations]: the loop state is the pair
    [(combinations, count)].  The inner loop stops at its [break]; the
    outer loop stops at the [break] that follows the inner loop. *)
Fixpoint word_number_inner (word : string) (numbers : list string)
    (max_combinations : Z) (st : list string * Z) : list string * Z :=
  match numbers with
  | [] => st
  | number :: numbers' =>
      let '(combinations, count) := st in
      if (count >=? max_combinations)%Z then st
      else word_number_inner word numbers' max_combinations
             (combinations ++ [word +:+ number], (count + 1)%Z)
  end.

Fixpoint word_number_outer (words numbers : list string)
    (max_combinations : Z) (st : list string * Z) : list string * Z :=
  match words with
  | [] => st
  | word :: words' =>
      let st' := word_number_inner word numbers max_combinations st in
      if (st'.2 >=? max_combinations)%Z then st'
      else word_number_outer words' numbers max_combinations st'
  end.

Definition generate_word_number_combinations
    (words numbers : list string) (max_combinations : Z) : list string :=
  (word_number_outer words numbers max_combinations ([], 0%Z)).1.

(** [generate_number_sequences] *)
Definition generate_number_sequences (max_length : Z) : list string :=
let sequences := [] in
let sequences :=
  foldl (λ sequences length,
           sequences ++ [Py.join (Py.str <$> Py.range 0 length)])
        sequences (Py.range 1 (max_length + 1)) in
let sequences :=
  foldl (λ sequences digit,
           foldl (λ sequences length,
                    sequences ++ [Py.mul (Py.str digit) length])
                 sequences (Py.range 2 (max_length + 1)))
        sequences (Py.range 0 10) in
let common_numbers :=
  [ "007"; "69"; "420"; "666"; "777"; "888"; "999";
    "000"; "101"; "143"; "1337" ] in
sequences ++ common_numbers.

(** The two inner loops of [generate_keyboard_walking_patterns] for one
    row: every [row[i:j]] with [i] in [range(len(row) - 3)] and [j] in
    [range(i + 4, len(row) + 1)]. *)
Definition row_substrings (row : string) (patterns : list string)
  : list string :=
foldl (λ patterns i,
         foldl (λ patterns j, patterns ++ [Py.slice i j row])
               patterns
               (Py.range (i + 4) (Z.of_nat (String.length row) + 1)))
      patterns (Py.range 0 (Z.of_nat (String.length row) - 3)).

Definition generate_keyboard_walking_patterns : list string :=
let patterns := [] in
let keyboard_rows := [ "qwertyuiop"; "asdfghjkl"; "zxcvbnm" ] in
let patterns :=
  foldl (λ patterns row,
           let patterns := patterns ++ [row] in
           row_substrings row patterns)
        patterns keyboard_rows in
let common_walks :=
  [ "1qaz2wsx"; "qazwsx"; "!qaz@wsx"; "1q2w3e4r"; "qweasd"; "123qwe" ] in
patterns ++ common_walks.

End PatternGenerator.

(** ** Year patterns as the specification words them *)

(** The 4-digit decimal form of a year and its trailing 2-digit form. *)
Definition four_digit_form (y : Z) : string :=
  String (Py.digit_char (y `div` 1000))
    (String (Py.digit_char ((y `div` 100) `mod` 10))
       (String (Py.digit_char ((y `div` 10) `mod` 10))
          (String (Py.digit_char (y `mod` 10)) ""))).

Definition two_digit_form (y : Z) : string :=
  String (Py.digit_char ((y `div` 10) `mod` 10))
    (String (Py.digit_char (y `mod` 10)) "").

(** The years of [[start_year, end_year]] in ascending order, the full
    form of each immediately followed by its short form. *)
Definition year_patterns_spec (start_year end_year : Z) : list string :=
  year ← seqZ start_year (end_year - start_year + 1);
  [four_digit_form year; two_digit_form year].


(** ** generator.py: DictionaryGenerator *)

(** The files the engine may read.  [path_exists] is [os.path.exists];
    [read_lines p] is the sequence of lines iterating the opened file
    yields, or [None] when opening or reading raises. *)
Record filesystem := {
  path_exists : string → bool;
  read_lines : string → option (list string)
}.

(** The [mutations] sub-dictionary and the configuration dictionary.  A
    field is [None] when its key is absent; a toggle that is present
    holds its truth value. *)
Record mutations_config := {
  leetspeak : option bool;
  uppercase : option bool;
  numbers : option bool;
  special : option bool
}.

Record user_config := {
  base_words : option (list string);
  mutations : option mutations_config;
  username_file : option string;
  use_dates : option bool;
  start_year : option Z;
  end_year : option Z;
  use_common : option bool;
  use_keyboard : option bool
}.

Module DictionaryGenerator.

(** [self.stats] *)
Record statistics := {
  stats_base_words : Z;
  stats_date_patterns : Z;
  stats_mutations : Z;
  stats_total_generated : Z
}.

(** The instance: [self.wordlist] and [self.stats]. *)
Record t := {
  wordlist : gset string;
  stats : statistics
}.

(** [__init__] *)
Definition init : t :=
  {| wordlist := ∅;
     stats := {| stats_base_words := 0; stats_date_patterns := 0;
                 stats_mutations := 0; stats_total_generated := 0 |} |}.

Definition set_wordlist (w : gset string) (self : t) : t :=
  {| wordlist := w; stats := stats self |}.
Definition set_stats (s : statistics) (self : t) : t :=
  {| wordlist := wordlist self; stats := s |}.

Definition set_base_words (n : Z) (s : statistics) : statistics :=
  {| stats_base_words := n; stats_date_patterns := stats_date_patterns s;
     stats_mutations := stats_mutations s;
     stats_total_generated := stats_total_generated s |}.
Definition set_date_patterns (n : Z) (s : statistics) : statistics :=
  {| stats_base_words := stats_base_words s; stats_date_patterns := n;
     stats_mutations := stats_mutations s;
     stats_total_generated := stats_total_generated s |}.
Definition add_mutations (n : Z) (s : statistics) : statistics :=
  {| stats_base_words := stats_base_words s;
     stats_date_patterns := stats_date_patterns s;
     stats_mutations := (stats_mutations s + n)%Z;
     stats_total_generated := stats_total_generated s |}.
Definition set_total_generated (n : Z) (s : statistics) : statistics :=
  {| stats_base_words := stats_base_words s;
     stats_date_patterns := stats_date_patterns s;
     stats_mutations := stats_mutations s;
     stats_total_generated := n |}.

Definition len {A} (l : list A) : Z := Z.of_nat (length l).

(** [add_word]: [if word and len(word) > 0: self.wordlist.add(word)] *)
Definition add_word (word : string) (self : t) : t :=
  if Py.truthy word && (0 <? String.length word)%nat
  then set_wordlist ({[ word ]} ∪ wordlist self) self
  else self.

Definition add_words (words : list string) (self : t) : t :=
  foldl (λ self word, add_word word self) self words.

Definition generate_base_words (base_words : list string) (self : t) : t :=
  let self := add_words base_words self in
  set_stats (set_base_words (len base_words) (stats self)) self.

(** [generate_with_dates]: the loop state is [(self, count)]. *)
Definition generate_with_dates (base_words : list string)
    (start_year end_year : Z) (self : t) : t :=
  let count := 0%Z in
  let years := PatternGenerator.generate_year_patterns start_year end_year in
  let '(self, count) :=
    foldl (λ '(self, count) word,
             let '(self, count) :=
               foldl (λ '(self, count) year,
                        (add_word (word +:+ year) self, (count + 1)%Z))
                     (self, count) years in
             let '(self, count) :=
               foldl (λ '(self, count) month,
                        (add_word (word +:+ Py.format_02d month) self,
                         (count + 1)%Z))
                     (self, count) (Py.range 1 13) in
             foldl (λ '(self, count) day,
                      (add_word (word +:+ Py.format_02d day) self,
                       (count + 1)%Z))
                   (self, count) (Py.range 1 32))
          (self, count) base_words in
  set_stats (set_date_patterns count (stats self)) self.

Definition common_numbers : list string :=
  [ "1"; "12"; "123"; "1234"; "12345"; "123456";
    "0"; "00"; "000";
    "01"; "001"; "0001";
    "!"; "!!"; "!!!";
    "@"; "@@" ].

(** [generate_with_numbers]; its local [count] is only printed. *)
Definition generate_with_numbers (base_words : list string)
    (max_number : Z) (self : t) : t :=
  foldl (λ self word,
           let self :=
             foldl (λ self num, add_word (word +:+ num) self)
                   self common_numbers in
           foldl (λ self i, add_word (word +:+ Py.str i) self)
                 self (Py.range 0 (Z.min 100 (max_number + 1))))
        self base_words.

Definition generate_common_passwords (self : t) : t :=
  add_words config.COMMON_PASSWORDS self.

Definition generate_keyboard_patterns (self : t) : t :=
  add_words config.KEYBOARD_PATTERNS self.

(** [apply_leet_speak]: the variants are gathered in the local set
    [new_words], whose elements are then added. *)
Definition apply_leet_speak (base_words : list string) (self : t) : t :=
  let count := 0%Z in
  let new_words : gset string := ∅ in
  let '(new_words, count) :=
    foldl (λ '(new_words, count) word,
             let variants := PatternGenerator.generate_leet_speak_patterns word in
             (new_words ∪ list_to_set variants, (count + len variants)%Z))
          (new_words, count) base_words in
  let self := add_words (elements new_words) self in
  set_stats (add_mutations count (stats self)) self.

Definition apply_uppercase_variations (base_words : list string) (self : t) : t :=
  let count := 0%Z in
  let new_words : gset string := ∅ in
  let '(new_words, count) :=
    foldl (λ '(new_words, count) word,
             let variants := PatternGenerator.generate_case_variations word in
             (new_words ∪ list_to_set variants, (count + len variants)%Z))
          (new_words, count) base_words in
  let self := add_words (elements new_words) self in
  set_stats (add_mutations count (stats self)) self.

Definition apply_special_characters (base_words : list string) (self : t) : t :=
  let count := 0%Z in
  let '(self, count) :=
    foldl (λ '(self, count) word,
             let variants :=
               PatternGenerator.generate_special_char_variations word in
             (add_words variants self, (count + len variants)%Z))
          (self, count) base_words in
  set_stats (add_mutations count (stats self)) self.

(** [generate_from_username_file]: returns early when the path does not
    exist; an exception while reading is caught, and at that point
    nothing has been added yet. *)
Definition generate_from_username_file (fs : filesystem)
    (filepath : string) (self : t) : t :=
  if negb (path_exists fs filepath) then self
  else
    match read_lines fs filepath with
    | None => self
    | Some lines =>
        let usernames :=
          Py.strip <$> filter (λ line, Py.truthy (Py.strip line) = true) lines in
        let self := add_words usernames self in
        foldl (λ self username,
                 let self := add_word (username +:+ "123") self in
                 let self := add_word (username +:+ "@123") self in
                 let self := add_word (username +:+ "!") self in
                 let self := add_word (username +:+ "2024") self in
                 let cleaned :=
                   Py.replace "_" "" (Py.replace "." "" username) in
                 if decide (cleaned ≠ username)
                 then
                   let self := add_word cleaned self in
                   add_word (cleaned +:+ "123") self
                 else self)
              self usernames
    end.

(** [not base_words], [username_file and ...], [user_config.get(k)]:
    truth values of the configuration entries. *)
Definition list_truthy {A} (l : list A) : bool :=
  match l with [] => false | _ => true end.
Definition option_string_truthy (o : option string) : bool :=
  match o with None => false | Some s => Py.truthy s end.

(** [generate_dictionary]: returns the count together with the updated
    instance. *)
Definition generate_dictionary (fs : filesystem) (user_config : user_config)
    (self : t) : Z * t :=
  let base_words := default [] (base_words user_config) in
  let mutations :=
    default {| leetspeak := None; uppercase := None;
               numbers := None; special := None |}
            (mutations user_config) in
  if negb (list_truthy base_words) then (0%Z, self)
  else
    let self := generate_base_words base_words self in
    let username_file := username_file user_config in
    let self :=
      if option_string_truthy username_file
         && path_exists fs (default "" username_file)
      then generate_from_username_file fs (default "" username_file) self
      else self in
    let self :=
      if default false (use_dates user_config)
      then generate_with_dates base_words
             (default config.DEFAULT_START_YEAR (start_year user_config))
             (default config.DEFAULT_END_YEAR (end_year user_config))
             self
      else self in
    let self :=
      if default false (use_common user_config)
      then generate_common_passwords self else self in
    let self :=
      if default false (use_keyboard user_config)
      then generate_keyboard_patterns self else self in
    let self :=
      if default true (numbers mutations)
      then generate_with_numbers base_words 999 self else self in
    let current_words :=
      take (length base_words * 10) (elements (wordlist self)) in
    let self :=
      if default false (leetspeak mutations)
      then apply_leet_speak base_words self else self in
    let self :=
      if default false (uppercase mutations)
      then apply_uppercase_variations base_words self else self in
    let self :=
      if default false (special mutations)
      then apply_special_characters base_words self else self in
    let self :=
      set_stats (set_total_generated (Z.of_nat (size (wordlist self)))
                                     (stats self)) self in
    (Z.of_nat (size (wordlist self)), self).

(** The sort key [(len(x), x)]: tuples compare by length first, then by
    the strings, character by character. *)
Definition key_le (x y : string) : Prop :=
  (String.length x < String.length y)%nat
  ∨ (String.length x = String.length y ∧ String.le x y).

Global Instance key_le_dec : RelDecision key_le.
Proof. intros x y. unfold key_le. apply _. Defined.

(** [save_to_file]: [words_to_save] is [list(self.wordlist)] in the
    order the set happens to iterate in; [writable] tells whether
    opening the destination succeeds.  The result is the text written
    to the file, or [None] when the exception handler is reached. *)
Definition save_to_file (writable : bool) (words_to_save : list string)
    (max_words : Z) : option string :=
  let words_to_save := merge_sort key_le words_to_save in
  let words_to_save :=
    if (0 <? max_words)%Z && (max_words <? len words_to_save)%Z
    then take (Z.to_nat max_words) words_to_save
    else words_to_save in
  if writable
  then Some (foldl (λ f word, f +:+ (word +:+ Py.newline)) "" words_to_save)
  else None.

(** The dictionary [get_statistics] returns.  [avg_length] is the
    quotient as an exact fraction; the rounding of the floating-point
    division is not modelled. *)
Record report := {
total_words : Z;
min_length : Z;
max_length : Z;
avg_length : QArith_base.Q;
unique_words : Z
}.

(** [get_statistics]: [words] is [list(self.wordlist)] in the order the
    set happens to iterate in; the empty dictionary is [None]. *)
Definition get_statistics (words : list string) : option report :=
match words with
| [] => None
| w :: ws =>
    let lengths := (λ w, Z.of_nat (String.length w)) <$> ws in
    let first := Z.of_nat (String.length w) in
    Some {| total_words := len words;
            min_length := Py.min_from first lengths;
            max_length := Py.max_from first lengths;
            avg_length := QArith_base.Qmake (Py.sum (first :: lengths))
                                (Z.to_pos (len words));
            unique_words :=
              Z.of_nat (size (list_to_set words : gset string)) |}
end.

End DictionaryGenerator.

(** ** Vocabulary of the properties *)

Import DictionaryGenerator.

(** *** The candidate set *)

(** No empty string among the candidates, and no candidate listed twice
    when the set is enumerated. *)
Definition candidate_invariant (self : t) : Prop :=
("" ∉ wordlist self) ∧ NoDup (elements (wordlist self)).

(** The operations of the generator that can grow the candidate set. *)
Inductive operation : Type :=
  | AddWord (word : string)
  | AddWords (words : list string)
  | GenerateBaseWords (base_words : list string)
  | GenerateWithDates (base_words : list string) (start_year end_year : Z)
  | GenerateWithNumbers (base_words : list string) (max_number : Z)
  | GenerateCommonPasswords
  | GenerateKeyboardPatterns
  | ApplyLeetSpeak (base_words : list string)
  | ApplyUppercaseVariations (base_words : list string)
  | ApplySpecialCharacters (base_words : list string)
  | GenerateFromUsernameFile (fs : filesystem) (filepath : string)
  | GenerateDictionary (fs : filesystem) (cfg : user_config).

Definition run (op : operation) (self : t) : t :=
  match op with
  | AddWord word => add_word word self
  | AddWords words => add_words words self
  | GenerateBaseWords base_words => generate_base_words base_words self
  | GenerateWithDates base_words start_year end_year =>
      generate_with_dates base_words start_year end_year self
  | GenerateWithNumbers base_words max_number =>
      generate_with_numbers base_words max_number self
  | GenerateCommonPasswords => generate_common_passwords self
  | GenerateKeyboardPatterns => generate_keyboard_patterns self
  | ApplyLeetSpeak base_words => apply_leet_speak base_words self
  | ApplyUppercaseVariations base_words =>
      apply_uppercase_variations base_words self
  | ApplySpecialCharacters base_words =>
      apply_special_characters base_words self
  | GenerateFromUsernameFile fs filepath =>
      generate_from_username_file fs filepath self
  | GenerateDictionary fs cfg => (generate_dictionary fs cfg self).2
  end.

(** *** The words each phase hands to [add_word], in call order *)

Definition dates_words (base_words : list string) (start_year end_year : Z)
  : list string :=
  word ← base_words;
  ((λ year, word +:+ year) <$>
     PatternGenerator.generate_year_patterns start_year end_year)
  ++ ((λ month, word +:+ Py.format_02d month) <$> Py.range 1 13)
  ++ ((λ day, word +:+ Py.format_02d day) <$> Py.range 1 32).

Definition numbers_words (base_words : list string) (max_number : Z)
  : list string :=
  word ← base_words;
  ((λ num, word +:+ num) <$> common_numbers)
  ++ ((λ i, word +:+ Py.str i) <$> Py.range 0 (Z.min 100 (max_number + 1))).

Definition leet_words (base_words : list string) : list string :=
  base_words ≫= PatternGenerator.generate_leet_speak_patterns.

Definition case_words (base_words : list string) : list string :=
  base_words ≫= PatternGenerator.generate_case_variations.

Definition special_words (base_words : list string) : list string :=
  base_words ≫= PatternGenerator.generate_special_char_variations.

Definition username_decorations (username : string) : list string :=
  let cleaned := Py.replace "_" "" (Py.replace "." "" username) in
  [username +:+ "123"; username +:+ "@123"; username +:+ "!";
   username +:+ "2024"]
  ++ (if decide (cleaned ≠ username) then [cleaned; cleaned +:+ "123"] else []).

Definition username_words (lines : list string) : list string :=
  let usernames :=
    Py.strip <$> filter (λ line, Py.truthy (Py.strip line) = true) lines in
  usernames ++ (usernames ≫= username_decorations).

(** *** Leet variants *)

(** [v] is the lowercased [word] with every occurrence of one letter of
    the leet map replaced by one of that letter's substitutes. *)
Definition single_class_variant (word v : string) : Prop :=
  ∃ char replacements replacement,
    (char, replacements) ∈ config.LEET_SPEAK_MAP
    ∧ Py.contains char (Py.lower word) = true
    ∧ replacement ∈ tail replacements
    ∧ v = Py.replace char replacement (Py.lower word).

(** A choice of substitute for a letter that occurs in the lowercased
    word. *)
Definition leet_choice (word : string) (choice : ascii * string) : Prop :=
  ∃ replacements,
    (choice.1, replacements) ∈ config.LEET_SPEAK_MAP
    ∧ choice.2 ∈ tail replacements
    ∧ Py.contains choice.1 (Py.lower word) = true.

Fixpoint substitute (choices : list (ascii * string)) (s : string) : string :=
  match choices with
  | [] => s
  | (char, replacement) :: choices' =>
      substitute choices' (Py.replace char replacement s)
  end.

(** [v] is the lowercased [word] with two or more letter classes
    substituted at once. *)
Definition multi_class_variant (word v : string) : Prop :=
  ∃ choices,
    2 ≤ length choices
    ∧ NoDup choices.*1
    ∧ Forall (leet_choice word) choices
    ∧ v = substitute choices (Py.lower word).

(** *** Word-number combinations *)

(** All concatenations, words outermost, numbers innermost. *)
Definition all_combinations (words numbers : list string) : list string :=
  word ← words; (λ number, word +:+ number) <$> numbers.

(** *** Saving *)

(** One candidate per line. *)
Definition file_text (lines : list string) : string :=
  foldr (λ word rest, word +:+ Py.newline +:+ rest) "" lines.

(** The first [max_words] entries when [max_words > 0] and the list is
    longer than that, the whole list otherwise. *)
Definition truncate (max_words : Z) (l : list string) : list string :=
  if decide (0 < max_words ∧ max_words < len l)%Z
  then take (Z.to_nat max_words) l else l.

(** *** Phases of [generate_dictionary] *)

Definition effective_mutations (cfg : user_config) : mutations_config :=
  default {| leetspeak := None; uppercase := None;
             numbers := None; special := None |} (mutations cfg).

(** The generator after steps 1 to 6, before the mutation phases. *)
Definition phases_before_mutations (fs : filesystem) (cfg : user_config)
    (self : t) : t :=
  let base_words := default [] (base_words cfg) in
  let self := generate_base_words base_words self in
  let self :=
    if option_string_truthy (username_file cfg)
       && path_exists fs (default "" (username_file cfg))
    then generate_from_username_file fs (default "" (username_file cfg)) self
    else self in
  let self :=
    if default false (use_dates cfg)
    then generate_with_dates base_words
           (default config.DEFAULT_START_YEAR (start_year cfg))
           (default config.DEFAULT_END_YEAR (end_year cfg)) self
    else self in
  let self :=
    if default false (use_common cfg)
    then generate_common_passwords self else self in
  let self :=
    if default false (use_keyboard cfg)
    then generate_keyboard_patterns self else self in
  if default true (numbers (effective_mutations cfg))
  then generate_with_numbers base_words 999 self else self.

(** [x] is a variant that an enabled mutation phase derives from one of
    the seed words. *)
Definition seed_variant (m : mutations_config) (seeds : list string)
    (x : string) : Prop :=
  (default false (leetspeak m) = true
   ∧ ∃ seed, seed ∈ seeds
       ∧ x ∈ PatternGenerator.generate_leet_speak_patterns seed)
  ∨ (default false (uppercase m) = true
     ∧ ∃ seed, seed ∈ seeds
         ∧ x ∈ PatternGenerator.generate_case_variations seed)
  ∨ (default false (special m) = true
     ∧ ∃ seed, seed ∈ seeds
         ∧ x ∈ PatternGenerator.generate_special_char_variations seed).

(** A configuration given by its toggles, the other entries fixed. *)
Definition with_toggles (cfg : user_config)
    (dates common keyboard leet upper nums spec : option bool) : user_config :=
  {| base_words := base_words cfg;
     mutations := Some {| leetspeak := leet; uppercase := upper;
                          numbers := nums; special := spec |};
     username_file := username_file cfg;
     use_dates := dates;
     start_year := start_year cfg;
     end_year := end_year cfg;
     use_common := common;
     use_keyboard := keyboard |}.

(** ** Vocabulary of the further properties *)

(** The words the username step of [generate_dictionary] hands to
    [add_word]: none unless the configured path is non-empty, exists and
    can be read. *)
Definition username_contribution (fs : filesystem) (cfg : user_config)
  : list string :=
  if option_string_truthy (username_file cfg)
     && path_exists fs (default "" (username_file cfg))
  then match read_lines fs (default "" (username_file cfg)) with
       | Some lines => username_words lines
       | None => []
       end
  else [].

(** The words a whole run hands to [add_word], phase after phase; each
    part depends on the configuration and the files only. *)
Definition generated_words (fs : filesystem) (cfg : user_config)
  : list string :=
  let seeds := default [] (base_words cfg) in
  let m := effective_mutations cfg in
  seeds
  ++ username_contribution fs cfg
  ++ (if default false (use_dates cfg)
      then dates_words seeds
             (default config.DEFAULT_START_YEAR (start_year cfg))
             (default config.DEFAULT_END_YEAR (end_year cfg))
      else [])
  ++ (if default false (use_common cfg) then config.COMMON_PASSWORDS else [])
  ++ (if default false (use_keyboard cfg)
      then config.KEYBOARD_PATTERNS else [])
  ++ (if default true (numbers m) then numbers_words seeds 999 else [])
  ++ (if default false (leetspeak m) then leet_words seeds else [])
  ++ (if default false (uppercase m) then case_words seeds else [])
  ++ (if default false (special m) then special_words seeds else []).

(** A toggle that is enabled in the first configuration is enabled in
    the second, [absent] being what an absent toggle means. *)
Definition enabled_le (absent : bool) (toggle1 toggle2 : option bool) : Prop :=
  default absent toggle1 = true → default absent toggle2 = true.

(** No line break inside the string. *)
Definition single_line (s : string) : Prop :=
  Py.contains "010"%char s = false.

(** ** Generic facts about loops *)

Lemma foldl_append_bind {A B} (f : A → list B) (l : list A) (acc : list B) :
  foldl (λ acc x, acc ++ f x) acc l = acc ++ (l ≫= f).
Proof.
  revert acc. induction l as [|x l IH]; intros acc; simpl.
  - by rewrite app_nil_r.
  - by rewrite IH, app_assoc.
Qed.

Lemma foldl_ext_in {A B} (f g : A → B → A) (l : list B) (a : A) :
  (∀ a x, f a x = g a x) → foldl f a l = foldl g a l.
Proof.
  intros Hfg. revert a. induction l as [|x l IH]; intros a; simpl; [done|].
  by rewrite Hfg, IH.
Qed.

Lemma generate_year_patterns_bind (s e : Z) :
  PatternGenerator.generate_year_patterns s e =
  Py.range s (e + 1) ≫= λ y, [Py.str y; Py.drop 2 (Py.str y)].
Proof.
  unfold PatternGenerator.generate_year_patterns.
  rewrite <- (app_nil_l (_ ≫= _)), <- foldl_append_bind.
  apply foldl_ext_in. intros acc y. by rewrite <- app_assoc.
Qed.

(** ** Decimal rendering of 4-digit numbers *)

(** The fuel [str] passes is enough: more fuel gives the same digits. *)
Lemma str_digits_fuel_enough (fuel extra : nat) (n : Z) (acc : string) :
  (0 ≤ n < 2 ^ Z.of_nat (S fuel))%Z →
  Py.str_digits (S fuel + extra) n acc = Py.str_digits (S fuel) n acc.
Proof.
  revert n acc. induction fuel as [|fuel IH]; intros n acc Hn.
  - cbn [Py.str_digits Nat.add].
    assert (n `div` 10 = 0)%Z as -> by (apply Z.div_small; simpl in Hn; lia).
    done.
  - change (S (S fuel) + extra)%nat with (S (S fuel + extra)).
    cbn [Py.str_digits].
    destruct (n `div` 10 =? 0)%Z; [done|].
    apply IH. split; [apply Z.div_pos; lia|].
    apply Z.div_lt_upper_bound; [lia|].
    rewrite (Nat2Z.inj_succ (S fuel)), Z.pow_succ_r in Hn by lia. lia.
Qed.

Lemma str_fuel_enough (z : Z) (extra : nat) :
  (0 ≤ z)%Z →
  Py.str_digits (S (Z.to_nat (Z.log2 z)) + extra) z "" = Py.str z.
Proof.
  intros Hz. unfold Py.str.
  destruct (Z.ltb_spec z 0) as [?|_]; [lia|].
  apply str_digits_fuel_enough.
  rewrite Nat2Z.inj_succ, Z2Nat.id by apply Z.log2_nonneg.
  destruct (decide (z = 0%Z)) as [->|]; [done|].
  split; [done|]. apply Z.log2_spec. lia.
Qed.

Example str_examples :
  Py.str 0 = "0" ∧ Py.str 7 = "7" ∧ Py.str 99 = "99" ∧ Py.str 100 = "100"
  ∧ Py.str (-15) = "-15" ∧ Py.format_02d 7 = "07" ∧ Py.format_02d 12 = "12".
Proof. by vm_compute. Qed.

Lemma str_digits_four (fuel : nat) (y : Z) (acc : string) :
  (1000 ≤ y ≤ 9999)%Z →
  Py.str_digits (S (S (S (S fuel)))) y acc =
  String (Py.digit_char (y `div` 1000))
    (String (Py.digit_char ((y `div` 100) `mod` 10))
       (String (Py.digit_char ((y `div` 10) `mod` 10))
          (String (Py.digit_char (y `mod` 10)) acc))).
Proof.
  intros Hy. cbn [Py.str_digits].
  rewrite !Z.div_div by lia.
  change (10 * 10)%Z with 100%Z. change (100 * 10)%Z with 1000%Z.
  change (1000 * 10)%Z with 10000%Z.
  assert (y `div` 10 ≠ 0)%Z as H1 by (intros ?%Z.div_small_iff; lia).
  assert (y `div` 100 ≠ 0)%Z as H2 by (intros ?%Z.div_small_iff; lia).
  assert (y `div` 1000 ≠ 0)%Z as H3 by (intros ?%Z.div_small_iff; lia).
  assert (y `div` 10000 = 0)%Z as H4 by (apply Z.div_small; lia).
  apply Z.eqb_neq in H1, H2, H3. apply Z.eqb_eq in H4.
  rewrite H1, H2, H3, H4.
  assert ((y `div` 1000) `mod` 10 = y `div` 1000)%Z as ->; [|done].
  apply Z.mod_small. split.
  - apply Z.div_pos; lia.
  - apply Z.div_lt_upper_bound; lia.
Qed.

Lemma str_four_digit (y : Z) :
  (1000 ≤ y ≤ 9999)%Z → Py.str y = four_digit_form y.
Proof.
  intros Hy. unfold Py.str.
  destruct (Z.ltb_spec y 0) as [?|_]; [lia|].
  assert (9 ≤ Z.log2 y)%Z as Hlog.
  { change 9%Z with (Z.log2 512). apply Z.log2_le_mono. lia. }
  destruct (Z.to_nat (Z.log2 y)) as [|[|[|fuel]]] eqn:Hf; [lia..|].
  by apply str_digits_four.
Qed.

Lemma str_two_digit (y : Z) :
  (1000 ≤ y ≤ 9999)%Z → Py.drop 2 (Py.str y) = two_digit_form y.
Proof. intros Hy. by rewrite str_four_digit. Qed.

(** ** Year patterns *)

(** C2, as amended: an inverted range yields the empty sequence, and no
    call of [generate_year_patterns] raises. *)
Theorem year_patterns_inverted_range_empty (start_year end_year : Z) :
  (end_year < start_year)%Z →
  PatternGenerator.call_generate_year_patterns start_year end_year
  = Py.Returns [].
Proof.
  intros Hlt. unfold PatternGenerator.call_generate_year_patterns.
  f_equal. rewrite generate_year_patterns_bind.
  unfold Py.range, seqZ.
  by replace (Z.to_nat (end_year + 1 - start_year)) with 0%nat by lia.
Qed.

Lemma year_patterns_inverted_range_empty_witness :
  PatternGenerator.call_generate_year_patterns 2024 2023 = Py.Returns [].
Proof. apply year_patterns_inverted_range_empty. lia. Defined.

(** C2 as stated fails: [generate_year_patterns(2024, 2023)] returns a
    result, the empty list, and does not raise [InvalidRangeError]. *)
Lemma year_patterns_inverted_range_no_error :
  ¬ (PatternGenerator.call_generate_year_patterns 2024 2023
     = Py.Raises Py.InvalidRangeError).
Proof. vm_compute. discriminate. Qed.

(** C3: for 4-digit years with [start_year <= end_year], the result lists
    the years of the range in ascending order, each as its 4-digit form
    immediately followed by its trailing 2-digit form; for 2023 to 2024
    it is exactly "2023", "23", "2024", "24". *)
Theorem year_patterns_correct (start_year end_year : Z) :
  (1000 ≤ start_year)%Z → (start_year ≤ end_year)%Z → (end_year ≤ 9999)%Z →
  PatternGenerator.generate_year_patterns start_year end_year
  = year_patterns_spec start_year end_year
  ∧ PatternGenerator.generate_year_patterns 2023 2024
    = ["2023"; "23"; "2024"; "24"].
Proof.
  intros Hlo Hle Hhi. split; [|by vm_compute].
  rewrite generate_year_patterns_bind. unfold year_patterns_spec, Py.range.
  replace (end_year + 1 - start_year)%Z with (end_year - start_year + 1)%Z by lia.
  apply Forall_bind_ext, Forall_forall.
  intros y Hy%elem_of_seqZ.
  by rewrite str_two_digit, str_four_digit by lia.
Qed.

Lemma year_patterns_correct_witness :
  PatternGenerator.generate_year_patterns 2023 2024
  = year_patterns_spec 2023 2024
  ∧ PatternGenerator.generate_year_patterns 2023 2024
    = ["2023"; "23"; "2024"; "24"].
Proof. apply year_patterns_correct; lia. Defined.

(** ** Word-number combinations *)

Section word_number.
Context (numbers : list string) (max_combinations : Z).

(** Until the bound is met the inner loop appends one combination per
    number; [count] is how many were produced before. *)
Lemma word_number_inner_take word nums combinations count :
  PatternGenerator.word_number_inner word nums max_combinations
    (combinations, count)
  = let new := take (Z.to_nat (max_combinations - count))
                    ((λ number, word +:+ number) <$> nums) in
    (combinations ++ new, (count + len new)%Z).
Proof.
  revert combinations count.
  induction nums as [|number nums IH]; intros combinations count; simpl.
  - rewrite take_nil, app_nil_r. unfold len. simpl. f_equal. lia.
  - destruct (Z.geb_spec count max_combinations) as [Hge|Hlt].
    + replace (Z.to_nat (max_combinations - count)) with 0%nat by lia.
      simpl. rewrite app_nil_r. unfold len. simpl. f_equal. lia.
    + rewrite IH. simpl.
      replace (Z.to_nat (max_combinations - count))
        with (S (Z.to_nat (max_combinations - (count + 1)))) by lia.
      simpl. rewrite <- app_assoc. simpl. f_equal.
      unfold len, fmap. simpl. lia.
Qed.

Lemma word_number_outer_take words combinations count :
  PatternGenerator.word_number_outer words numbers max_combinations
    (combinations, count)
  = let new := take (Z.to_nat (max_combinations - count))
                    (all_combinations words numbers) in
    (combinations ++ new, (count + len new)%Z).
Proof.
  revert combinations count.
  induction words as [|word words IH]; intros combinations count; simpl.
  - rewrite take_nil, app_nil_r. unfold len. simpl. f_equal. lia.
  - rewrite word_number_inner_take. cbn zeta. cbn [snd].
    set (row := (λ number, word +:+ number) <$> numbers).
    set (k := Z.to_nat (max_combinations - count)).
    change (all_combinations (word :: words) numbers)
      with (row ++ all_combinations words numbers).
    assert (length (take k row) = k `min` length row) as Hlen
      by apply length_take.
    destruct (Z.geb_spec (count + len (take k row)) max_combinations)
      as [Hge|Hlt]; unfold len in *.
    + rewrite take_app_le by lia. done.
    + rewrite IH. cbn zeta.
      rewrite (take_ge row k) by lia.
      rewrite (take_app_ge row) by lia.
      replace (Z.to_nat (max_combinations - (count + Z.of_nat (length row))))
        with (k - length row)%nat by lia.
      rewrite <- app_assoc. f_equal.
      rewrite !length_app. lia.
Qed.
End word_number.

(** C8: the result is the first [max_combinations] concatenations of the
    word-outer, number-inner enumeration, so production stops in the
    middle of an inner pass once the bound is met; for ["a","b"],
    ["1","2","3"] and bound 2 it is exactly "a1", "a2". *)
Theorem word_number_combinations_bounded
    (words numbers : list string) (max_combinations : Z) :
  PatternGenerator.generate_word_number_combinations
    words numbers max_combinations
  = take (Z.to_nat max_combinations) (all_combinations words numbers)
  ∧ PatternGenerator.generate_word_number_combinations
      ["a"; "b"] ["1"; "2"; "3"] 2
    = ["a1"; "a2"].
Proof.
  split; [|by vm_compute].
  unfold PatternGenerator.generate_word_number_combinations.
  rewrite word_number_outer_take. cbn zeta. cbn [fst app].
  by rewrite Z.sub_0_r.
Qed.

(** ** The candidate set under [add_word] and [add_words] *)

Lemma add_word_unfold word self :
  add_word word self
  = if decide (word = "") then self
    else set_wordlist ({[ word ]} ∪ wordlist self) self.
Proof. by destruct word. Qed.

Lemma add_word_empty self : add_word "" self = self.
Proof. done. Qed.

Lemma stats_add_word word self : stats (add_word word self) = stats self.
Proof. rewrite add_word_unfold. by case_decide. Qed.

Lemma elem_of_add_word x word self :
  x ∈ wordlist (add_word word self)
  ↔ x ∈ wordlist self ∨ (x ≠ "" ∧ x = word).
Proof.
  rewrite add_word_unfold. case_decide; simpl; [naive_solver|set_solver].
Qed.

Lemma add_words_nil self : add_words [] self = self.
Proof. done. Qed.

Lemma add_words_cons word words self :
  add_words (word :: words) self = add_words words (add_word word self).
Proof. done. Qed.

Lemma add_words_app words1 words2 self :
  add_words (words1 ++ words2) self = add_words words2 (add_words words1 self).
Proof. apply foldl_app. Qed.

Lemma stats_add_words words self : stats (add_words words self) = stats self.
Proof.
  revert self. induction words as [|word words IH]; intros self; [done|].
  by rewrite add_words_cons, IH, stats_add_word.
Qed.

Lemma elem_of_add_words x words self :
  x ∈ wordlist (add_words words self)
  ↔ x ∈ wordlist self ∨ (x ≠ "" ∧ x ∈ words).
Proof.
  revert self. induction words as [|word words IH]; intros self.
  - rewrite add_words_nil. set_solver.
  - rewrite add_words_cons, IH, elem_of_add_word, elem_of_cons. naive_solver.
Qed.

(** Two generators with the same candidates and the same statistics. *)
Lemma generator_eq (self1 self2 : t) :
  wordlist self1 = wordlist self2 → stats self1 = stats self2 → self1 = self2.
Proof. destruct self1, self2; simpl; congruence. Qed.

(** The order in which words are added does not matter for the set. *)
Lemma add_words_same_elements words1 words2 self :
  (∀ x, x ∈ words1 ↔ x ∈ words2) →
  add_words words1 self = add_words words2 self.
Proof.
  intros Hsame. apply generator_eq; [|by rewrite !stats_add_words].
  apply set_eq. intros x. rewrite !elem_of_add_words. naive_solver.
Qed.

(** ** Each phase as a sequence of [add_word] calls *)

Lemma len_nil {A} : len (@nil A) = 0%Z.
Proof. done. Qed.

Lemma len_cons {A} (x : A) l : len (x :: l) = (len l + 1)%Z.
Proof. unfold len. cbn [length]. lia. Qed.

Lemma len_app {A} (l k : list A) : len (l ++ k) = (len l + len k)%Z.
Proof. unfold len. rewrite length_app. lia. Qed.

Lemma len_fmap {A B} (f : A → B) l : len (f <$> l) = len l.
Proof. unfold len. by rewrite length_fmap. Qed.

Lemma foldl_add_word_count {A} (f : A → string) (l : list A) self count :
  foldl (λ '(self, count) x, (add_word (f x) self, (count + 1)%Z))
        (self, count) l
  = (add_words (f <$> l) self, (count + len l)%Z).
Proof.
  revert self count. induction l as [|x l IH]; intros self count; simpl.
  - rewrite len_nil. f_equal. lia.
  - rewrite IH, len_cons. f_equal. lia.
Qed.

Lemma foldl_add_word {A} (f : A → string) (l : list A) self :
  foldl (λ self x, add_word (f x) self) self l = add_words (f <$> l) self.
Proof.
  revert self. induction l as [|x l IH]; intros self; simpl; [done|].
  by rewrite IH.
Qed.

Lemma foldl_add_words_count {A} (f : A → list string) (l : list A) self count :
  foldl (λ '(self, count) x,
           let variants := f x in
           (add_words variants self, (count + len variants)%Z))
        (self, count) l
  = (add_words (l ≫= f) self, (count + len (l ≫= f))%Z).
Proof.
  revert self count. induction l as [|x l IH]; intros self count; csimpl.
  - rewrite len_nil. f_equal. lia.
  - rewrite IH, add_words_app, len_app. f_equal. lia.
Qed.

Lemma foldl_gather {A} (f : A → list string) (l : list A)
    (new_words : gset string) count :
  foldl (λ '(new_words, count) x,
           let variants := f x in
           (new_words ∪ list_to_set variants, (count + len variants)%Z))
        (new_words, count) l
  = (new_words ∪ list_to_set (l ≫= f), (count + len (l ≫= f))%Z).
Proof.
  revert new_words count.
  induction l as [|x l IH]; intros new_words count; csimpl.
  - rewrite len_nil. f_equal; [set_solver|lia].
  - rewrite IH, len_app. f_equal; [|lia].
    rewrite list_to_set_app_L. set_solver.
Qed.

Lemma generate_base_words_eq base_words self :
  generate_base_words base_words self
  = set_stats (set_base_words (len base_words) (stats self))
              (add_words base_words self).
Proof. unfold generate_base_words. by rewrite stats_add_words. Qed.

Lemma generate_with_dates_eq base_words start_year end_year self :
  generate_with_dates base_words start_year end_year self
  = set_stats
      (set_date_patterns (len (dates_words base_words start_year end_year))
                         (stats self))
      (add_words (dates_words base_words start_year end_year) self).
Proof.
  unfold generate_with_dates.
  set (years := PatternGenerator.generate_year_patterns start_year end_year).
  set (step := λ '(self, count) word, _).
  assert (∀ bw self count,
    foldl step (self, count) bw
    = (add_words (dates_words bw start_year end_year) self,
       (count + len (dates_words bw start_year end_year))%Z)) as Hloop.
  { induction bw as [|word bw IH]; intros g count.
    - cbn [foldl]. unfold dates_words. csimpl. rewrite len_nil. f_equal. lia.
    - cbn [foldl]. unfold step at 2.
      change (dates_words (word :: bw) start_year end_year)
        with ((((λ year, word +:+ year) <$> years)
               ++ ((λ month, word +:+ Py.format_02d month) <$> Py.range 1 13)
               ++ ((λ day, word +:+ Py.format_02d day) <$> Py.range 1 32))
              ++ dates_words bw start_year end_year).
      rewrite (foldl_add_word_count (λ year, word +:+ year)).
      rewrite (foldl_add_word_count (λ month, word +:+ Py.format_02d month)).
      rewrite (foldl_add_word_count (λ day, word +:+ Py.format_02d day)).
      rewrite IH. fold years.
      rewrite !add_words_app, !len_app, !len_fmap. f_equal. lia. }
  rewrite Hloop, stats_add_words. by rewrite Z.add_0_l.
Qed.

Lemma generate_with_numbers_eq base_words max_number self :
  generate_with_numbers base_words max_number self
  = add_words (numbers_words base_words max_number) self.
Proof.
  unfold generate_with_numbers. revert self.
  induction base_words as [|word bw IH]; intros self; [done|].
  cbn [foldl].
  rewrite (foldl_add_word (λ num, word +:+ num)).
  rewrite (foldl_add_word (λ i, word +:+ Py.str i)).
  rewrite IH.
  change (numbers_words (word :: bw) max_number)
    with ((((λ num, word +:+ num) <$> common_numbers)
           ++ ((λ i, word +:+ Py.str i) <$>
                 Py.range 0 (Z.min 100 (max_number + 1))))
          ++ numbers_words bw max_number).
  by rewrite !add_words_app.
Qed.

Lemma apply_leet_speak_eq base_words self :
  apply_leet_speak base_words self
  = set_stats (add_mutations (len (leet_words base_words)) (stats self))
              (add_words (leet_words base_words) self).
Proof.
  unfold apply_leet_speak.
  rewrite (foldl_gather PatternGenerator.generate_leet_speak_patterns).
  rewrite !stats_add_words. fold (leet_words base_words).
  rewrite Z.add_0_l. f_equal.
  apply add_words_same_elements. intros x.
  rewrite elem_of_elements. set_solver.
Qed.

Lemma apply_uppercase_variations_eq base_words self :
  apply_uppercase_variations base_words self
  = set_stats (add_mutations (len (case_words base_words)) (stats self))
              (add_words (case_words base_words) self).
Proof.
  unfold apply_uppercase_variations.
  rewrite (foldl_gather PatternGenerator.generate_case_variations).
  rewrite !stats_add_words. fold (case_words base_words).
  rewrite Z.add_0_l. f_equal.
  apply add_words_same_elements. intros x.
  rewrite elem_of_elements. set_solver.
Qed.

Lemma apply_special_characters_eq base_words self :
  apply_special_characters base_words self
  = set_stats (add_mutations (len (special_words base_words)) (stats self))
              (add_words (special_words base_words) self).
Proof.
  unfold apply_special_characters.
  rewrite (foldl_add_words_count
             PatternGenerator.generate_special_char_variations).
  rewrite !stats_add_words. fold (special_words base_words).
  by rewrite Z.add_0_l.
Qed.

Lemma generate_from_username_file_eq fs filepath self :
  generate_from_username_file fs filepath self
  = if path_exists fs filepath
    then match read_lines fs filepath with
         | Some lines => add_words (username_words lines) self
         | None => self
         end
    else self.
Proof.
  unfold generate_from_username_file.
  destruct (path_exists fs filepath); simpl; [|done].
  destruct (read_lines fs filepath) as [lines|]; [|done].
  unfold username_words. rewrite add_words_app.
  generalize (add_words
    (Py.strip <$> filter (λ line, Py.truthy (Py.strip line) = true) lines) self).
  generalize (Py.strip <$> filter (λ line, Py.truthy (Py.strip line) = true) lines).
  induction l as [|username usernames IH]; intros g; [done|].
  cbn [foldl]. rewrite IH.
  change ((username :: usernames) ≫= username_decorations)
    with (username_decorations username
          ++ (usernames ≫= username_decorations)).
  rewrite add_words_app. f_equal.
  unfold username_decorations. by case_decide.
Qed.

(** ** Strings that are never empty *)

Lemma app_nonempty_r (s1 s2 : string) : s2 ≠ "" → s1 +:+ s2 ≠ "".
Proof. destruct s1; [done|]. intros _. by cbv [String.append]. Qed.

Lemma str_digits_length fuel n acc :
  String.length acc ≤ String.length (Py.str_digits fuel n acc).
Proof.
  revert n acc. induction fuel as [|fuel IH]; intros n acc; simpl; [lia|].
  destruct (n `div` 10 =? 0)%Z; simpl; [lia|].
  etrans; [|apply IH]. simpl. lia.
Qed.

Lemma str_nonempty z : Py.str z ≠ "".
Proof.
  unfold Py.str. destruct (z <? 0)%Z; [done|].
  intros Hempty.
  pose proof (str_digits_length (Z.to_nat (Z.log2 z))
                (z `div` 10) (String (Py.digit_char (z `mod` 10)) "")) as Hlen.
  cbn [Py.str_digits] in Hempty.
  destruct (z `div` 10 =? 0)%Z; [done|].
  rewrite Hempty in Hlen. simpl in Hlen. lia.
Qed.

(** ** Number suffixes *)

Lemma elem_of_common_numbers_nonempty num : num ∈ common_numbers → num ≠ "".
Proof.
  intros Hin ->. revert Hin. unfold common_numbers.
  rewrite !elem_of_cons, elem_of_nil. naive_solver.
Qed.

Lemma elem_of_numbers_words x base_words max_number :
  x ∈ numbers_words base_words max_number
  ↔ ∃ word, word ∈ base_words
      ∧ ((∃ num, num ∈ common_numbers ∧ x = word +:+ num)
         ∨ (∃ i, (0 ≤ i ≤ Z.min 99 max_number)%Z ∧ x = word +:+ Py.str i)).
Proof.
  unfold numbers_words. rewrite list_elem_of_bind.
  apply exist_proper. intros word.
  rewrite elem_of_app, !list_elem_of_fmap. unfold Py.range.
  split.
  - intros [[[num [-> Hnum]]|[i [-> Hi%elem_of_seqZ]]] Hword];
      (split; [done|]); [left; eauto|right].
    exists i. split; [lia|done].
  - intros [Hword [[num [Hnum ->]]|[i [Hi ->]]]]; (split; [|done]).
    + left. eauto.
    + right. exists i. split; [done|]. apply elem_of_seqZ. lia.
Qed.

(** C4, as amended: the sequential suffixes are those of
    [range(min(100, max_number + 1))], the integers from 0 to
    [min(99, max_number)]; after the call the candidates are the earlier
    ones, every seed word followed by a common suffix, and every seed
    word followed by such an integer. *)
Theorem generate_with_numbers_suffixes
    (base_words : list string) (max_number : Z) (self : t) (x : string) :
  x ∈ wordlist (generate_with_numbers base_words max_number self)
  ↔ x ∈ wordlist self
    ∨ ∃ word, word ∈ base_words
        ∧ ((∃ num, num ∈ common_numbers ∧ x = word +:+ num)
           ∨ (∃ i, (0 ≤ i ≤ Z.min 99 max_number)%Z ∧ x = word +:+ Py.str i)).
Proof.
  rewrite generate_with_numbers_eq, elem_of_add_words, elem_of_numbers_words.
  split; [naive_solver|].
  intros [?|Hx]; [by left|right]. split; [|done].
  destruct Hx as [word [_ [[num [Hnum ->]]|[i [_ ->]]]]].
  - by apply app_nonempty_r, elem_of_common_numbers_nonempty.
  - apply app_nonempty_r, str_nonempty.
Qed.

(** C4 as stated fails: with the default [max_number = 999] the suffix
    100, which lies in [0..min(100, 999)], is not appended. *)
Lemma generate_with_numbers_cap_excludes_100 :
  ¬ (∀ i, (0 ≤ i ≤ Z.min 100 999)%Z →
       "admin" +:+ Py.str i
       ∈ wordlist (generate_with_numbers ["admin"] 999 init)).
Proof.
  intros Hall. specialize (Hall 100%Z ltac:(lia)).
  revert Hall. apply (bool_decide_eq_false_1 _). by vm_compute.
Qed.

(** ** The empty string never enters the candidate set *)

Lemma no_empty_add_words words self :
  "" ∉ wordlist self → "" ∉ wordlist (add_words words self).
Proof. rewrite elem_of_add_words. naive_solver. Qed.

Lemma no_empty_if (b : bool) (f : t → t) self :
  (∀ self, "" ∉ wordlist self → "" ∉ wordlist (f self)) →
  "" ∉ wordlist self → "" ∉ wordlist (if b then f self else self).
Proof. destruct b; auto. Qed.

Lemma no_empty_generate_base_words base_words self :
  "" ∉ wordlist self → "" ∉ wordlist (generate_base_words base_words self).
Proof. rewrite generate_base_words_eq. apply no_empty_add_words. Qed.

Lemma no_empty_generate_with_dates base_words start_year end_year self :
  "" ∉ wordlist self →
  "" ∉ wordlist (generate_with_dates base_words start_year end_year self).
Proof. rewrite generate_with_dates_eq. apply no_empty_add_words. Qed.

Lemma no_empty_generate_with_numbers base_words max_number self :
  "" ∉ wordlist self →
  "" ∉ wordlist (generate_with_numbers base_words max_number self).
Proof. rewrite generate_with_numbers_eq. apply no_empty_add_words. Qed.

Lemma no_empty_apply_leet_speak base_words self :
  "" ∉ wordlist self → "" ∉ wordlist (apply_leet_speak base_words self).
Proof. rewrite apply_leet_speak_eq. apply no_empty_add_words. Qed.

Lemma no_empty_apply_uppercase_variations base_words self :
  "" ∉ wordlist self →
  "" ∉ wordlist (apply_uppercase_variations base_words self).
Proof. rewrite apply_uppercase_variations_eq. apply no_empty_add_words. Qed.

Lemma no_empty_apply_special_characters base_words self :
  "" ∉ wordlist self →
  "" ∉ wordlist (apply_special_characters base_words self).
Proof. rewrite apply_special_characters_eq. apply no_empty_add_words. Qed.

Lemma no_empty_generate_from_username_file fs filepath self :
  "" ∉ wordlist self →
  "" ∉ wordlist (generate_from_username_file fs filepath self).
Proof.
  rewrite generate_from_username_file_eq.
  destruct (path_exists fs filepath); [|done].
  destruct (read_lines fs filepath); [|done].
  apply no_empty_add_words.
Qed.

(** [generate_dictionary] is its first six steps followed by the three
    mutation phases, all three on the seed words. *)
Lemma generate_dictionary_phases fs cfg self :
  generate_dictionary fs cfg self
  = let base_words := default [] (base_words cfg) in
    let m := effective_mutations cfg in
    if negb (list_truthy base_words) then (0%Z, self)
    else
      let self := phases_before_mutations fs cfg self in
      let self :=
        if default false (leetspeak m)
        then apply_leet_speak base_words self else self in
      let self :=
        if default false (uppercase m)
        then apply_uppercase_variations base_words self else self in
      let self :=
        if default false (special m)
        then apply_special_characters base_words self else self in
      (Z.of_nat (size (wordlist self)),
       set_stats (set_total_generated (Z.of_nat (size (wordlist self)))
                                      (stats self)) self).
Proof. done. Qed.

Lemma no_empty_phases_before_mutations fs cfg self :
  "" ∉ wordlist self → "" ∉ wordlist (phases_before_mutations fs cfg self).
Proof.
  intros Hne. unfold phases_before_mutations.
  apply (no_empty_if _ (generate_with_numbers _ _));
    [apply no_empty_generate_with_numbers|].
  apply (no_empty_if _ generate_keyboard_patterns);
    [intros ?; apply no_empty_add_words|].
  apply (no_empty_if _ generate_common_passwords);
    [intros ?; apply no_empty_add_words|].
  apply (no_empty_if _ (generate_with_dates _ _ _));
    [apply no_empty_generate_with_dates|].
  apply (no_empty_if _ (generate_from_username_file _ _));
    [apply no_empty_generate_from_username_file|].
  by apply no_empty_generate_base_words.
Qed.

Lemma no_empty_generate_dictionary fs cfg self :
  "" ∉ wordlist self → "" ∉ wordlist (generate_dictionary fs cfg self).2.
Proof.
  intros Hne. rewrite generate_dictionary_phases. cbn zeta.
  destruct (negb (list_truthy (default [] (base_words cfg)))); [done|].
  cbn [snd set_stats wordlist].
  apply (no_empty_if _ (apply_special_characters _));
    [apply no_empty_apply_special_characters|].
  apply (no_empty_if _ (apply_uppercase_variations _));
    [apply no_empty_apply_uppercase_variations|].
  apply (no_empty_if _ (apply_leet_speak _));
    [apply no_empty_apply_leet_speak|].
  by apply no_empty_phases_before_mutations.
Qed.

Lemma no_empty_run op self :
  "" ∉ wordlist self → "" ∉ wordlist (run op self).
Proof.
  destruct op; cbn [run].
  - rewrite elem_of_add_word. naive_solver.
  - apply no_empty_add_words.
  - apply no_empty_generate_base_words.
  - apply no_empty_generate_with_dates.
  - apply no_empty_generate_with_numbers.
  - apply (no_empty_add_words config.COMMON_PASSWORDS).
  - apply (no_empty_add_words config.KEYBOARD_PATTERNS).
  - apply no_empty_apply_leet_speak.
  - apply no_empty_apply_uppercase_variations.
  - apply no_empty_apply_special_characters.
  - apply no_empty_generate_from_username_file.
  - apply no_empty_generate_dictionary.
Qed.

(** C1: on a candidate set without the empty string, [add_word] inserts
    its argument exactly when the argument is non-empty and otherwise
    changes nothing; adding the same word a second time changes neither
    the set nor its size; a word is never held twice; and every operation
    that can grow the set keeps it free of empty strings and of
    duplicates. *)
Theorem candidate_set_invariant (self : t) :
  candidate_invariant self →
  (∀ word, word ∈ wordlist (add_word word self) ↔ word ≠ "")
  ∧ (∀ word, wordlist (add_word word self)
             = if decide (word = "") then wordlist self
               else {[ word ]} ∪ wordlist self)
  ∧ add_word "" self = self
  ∧ (∀ word, add_word word (add_word word self) = add_word word self
             ∧ size (wordlist (add_word word (add_word word self)))
               = size (wordlist (add_word word self)))
  ∧ (∀ word, word ∈ wordlist self →
             size (wordlist (add_word word self)) = size (wordlist self))
  ∧ (∀ op, candidate_invariant (run op self)).
Proof.
  intros [Hne _].
  assert (∀ word, add_word word (add_word word self) = add_word word self)
    as Hidem.
  { intros word. rewrite !add_word_unfold. case_decide; [done|].
    apply generator_eq; [|done]. simpl. set_solver. }
  split_and!.
  - intros word. split.
    + intros Hin ->. by rewrite add_word_empty in Hin.
    + intros Hword. rewrite elem_of_add_word. by right.
  - intros word. rewrite add_word_unfold. by case_decide.
  - done.
  - intros word. by rewrite Hidem.
  - intros word Hin. rewrite add_word_unfold. case_decide; [done|]. simpl.
    f_equal. set_solver.
  - intros op. split; [by apply no_empty_run|apply NoDup_elements].
Qed.

Lemma candidate_set_invariant_witness :
  candidate_invariant init
  ∧ (∀ op, candidate_invariant (run op init)).
Proof.
  assert (candidate_invariant init) as Hinit.
  { split; [apply not_elem_of_empty|apply NoDup_elements]. }
  split; [exact Hinit|].
  apply (candidate_set_invariant init Hinit).
Defined.

(** ** The orchestrator *)

(** C7: with an empty seed-word list, whether the key is absent or holds
    the empty list, [generate_dictionary] returns 0 and the generator is
    exactly as before; on a new generator the candidate set stays
    empty. *)
Theorem generate_dictionary_no_seeds
    (fs : filesystem) (cfg : user_config) (self : t) :
  default [] (base_words cfg) = [] →
  generate_dictionary fs cfg self = (0%Z, self)
  ∧ wordlist (generate_dictionary fs cfg init).2 = ∅.
Proof.
  intros Hempty. unfold generate_dictionary. by rewrite Hempty.
Qed.

Lemma generate_dictionary_no_seeds_witness :
  let cfg := {| base_words := Some []; mutations := None;
                username_file := None; use_dates := Some true;
                start_year := None; end_year := None;
                use_common := Some true; use_keyboard := Some true |} in
  let fs := {| path_exists := λ _, false; read_lines := λ _, None |} in
  default [] (base_words cfg) = []
  ∧ generate_dictionary fs cfg init = (0%Z, init).
Proof.
  intros cfg fs. split; [reflexivity|].
  apply (generate_dictionary_no_seeds fs cfg init). reflexivity.
Defined.

(** C10: an absent ['numbers'] toggle behaves as an enabled one, also
    when the whole ['mutations'] entry is absent, while each of the
    date, common-password, keyboard, leet-speak, uppercase and
    special-character toggles behaves as a disabled one when absent; with
    every toggle absent the run consists of the base words and the
    number suffixes only. *)
Theorem generate_dictionary_toggle_defaults
    (fs : filesystem) (cfg : user_config) (self : t)
    (dates common keyboard leet upper nums spec : option bool)
    (seed : string) (seeds : list string) :
  generate_dictionary fs
    (with_toggles cfg dates common keyboard leet upper None spec) self
  = generate_dictionary fs
      (with_toggles cfg dates common keyboard leet upper (Some true) spec) self
  ∧ generate_dictionary fs
      (with_toggles cfg None common keyboard leet upper nums spec) self
    = generate_dictionary fs
        (with_toggles cfg (Some false) common keyboard leet upper nums spec) self
  ∧ generate_dictionary fs
      (with_toggles cfg dates None keyboard leet upper nums spec) self
    = generate_dictionary fs
        (with_toggles cfg dates (Some false) keyboard leet upper nums spec) self
  ∧ generate_dictionary fs
      (with_toggles cfg dates common None leet upper nums spec) self
    = generate_dictionary fs
        (with_toggles cfg dates common (Some false) leet upper nums spec) self
  ∧ generate_dictionary fs
      (with_toggles cfg dates common keyboard None upper nums spec) self
    = generate_dictionary fs
        (with_toggles cfg dates common keyboard (Some false) upper nums spec) self
  ∧ generate_dictionary fs
      (with_toggles cfg dates common keyboard leet None nums spec) self
    = generate_dictionary fs
        (with_toggles cfg dates common keyboard leet (Some false) nums spec) self
  ∧ generate_dictionary fs
      (with_toggles cfg dates common keyboard leet upper nums None) self
    = generate_dictionary fs
        (with_toggles cfg dates common keyboard leet upper nums (Some false)) self
  ∧ generate_dictionary fs
      {| base_words := base_words cfg; mutations := None;
         username_file := username_file cfg; use_dates := dates;
         start_year := start_year cfg; end_year := end_year cfg;
         use_common := common; use_keyboard := keyboard |} self
    = generate_dictionary fs
        (with_toggles cfg dates common keyboard None None (Some true) None) self
  ∧ generate_dictionary fs
      {| base_words := Some (seed :: seeds); mutations := None;
         username_file := None; use_dates := None;
         start_year := start_year cfg; end_year := end_year cfg;
         use_common := None; use_keyboard := None |} self
    = let self :=
        generate_with_numbers (seed :: seeds) 999
          (generate_base_words (seed :: seeds) self) in
      (Z.of_nat (size (wordlist self)),
       set_stats (set_total_generated (Z.of_nat (size (wordlist self)))
                                      (stats self)) self).
Proof. split_and!; reflexivity. Qed.

Lemma wordlist_set_stats s self : wordlist (set_stats s self) = wordlist self.
Proof. done. Qed.

Lemma elem_of_bind_variants (f : string → list string) seeds x :
  x ∈ seeds ≫= f ↔ ∃ seed, seed ∈ seeds ∧ x ∈ f seed.
Proof. rewrite list_elem_of_bind. naive_solver. Qed.

(** C9: the candidates after [generate_dictionary] are those present
    after the number phase together with the non-empty variants that the
    enabled mutation phases derive from the seed words passed in; no
    string added by an earlier phase is mutated. *)
Theorem mutations_apply_to_seed_words
    (fs : filesystem) (cfg : user_config) (self : t)
    (seed : string) (seeds : list string) (x : string) :
  base_words cfg = Some (seed :: seeds) →
  x ∈ wordlist (generate_dictionary fs cfg self).2
  ↔ x ∈ wordlist (phases_before_mutations fs cfg self)
    ∨ (x ≠ "" ∧ seed_variant (effective_mutations cfg) (seed :: seeds) x).
Proof.
  intros Hseeds. rewrite generate_dictionary_phases. cbn zeta.
  rewrite Hseeds.
  change (default [] (Some (seed :: seeds))) with (seed :: seeds).
  cbn [negb list_truthy snd set_stats wordlist].
  generalize (phases_before_mutations fs cfg self) as pre.
  generalize (effective_mutations cfg) as m.
  intros m pre. unfold seed_variant.
  rewrite <- !elem_of_bind_variants.
  fold (leet_words (seed :: seeds)) (case_words (seed :: seeds))
       (special_words (seed :: seeds)).
  destruct (default false (leetspeak m)),
           (default false (uppercase m)),
           (default false (special m));
    rewrite ?apply_special_characters_eq, ?apply_uppercase_variations_eq,
            ?apply_leet_speak_eq;
    repeat (rewrite wordlist_set_stats || rewrite elem_of_add_words);
    naive_solver.
Qed.

Lemma mutations_apply_to_seed_words_witness :
  let cfg := {| base_words := Some ["ab"];
                mutations := Some {| leetspeak := Some true; uppercase := None;
                                     numbers := None; special := None |};
                username_file := None; use_dates := None;
                start_year := None; end_year := None;
                use_common := None; use_keyboard := None |} in
  let fs := {| path_exists := λ _, false; read_lines := λ _, None |} in
  base_words cfg = Some ["ab"]
  ∧ ("@b" ∈ wordlist (generate_dictionary fs cfg init).2
     ↔ "@b" ∈ wordlist (phases_before_mutations fs cfg init)
       ∨ ("@b" ≠ "" ∧ seed_variant (effective_mutations cfg) ["ab"] "@b")).
Proof.
  intros cfg fs. split; [reflexivity|].
  apply (mutations_apply_to_seed_words fs cfg init "ab" [] "@b"). reflexivity.
Defined.

(** With seed "ab", number suffixes and leet-speak enabled: "ab1" is a
    candidate when the leet phase starts and "@b1" is a leet variant of
    it, yet "@b1" is not generated. *)
Lemma mutations_skip_earlier_phase_strings :
  let cfg := {| base_words := Some ["ab"];
                mutations := Some {| leetspeak := Some true; uppercase := None;
                                     numbers := None; special := None |};
                username_file := None; use_dates := None;
                start_year := None; end_year := None;
                use_common := None; use_keyboard := None |} in
  let fs := {| path_exists := λ _, false; read_lines := λ _, None |} in
  "ab1" ∈ wordlist (phases_before_mutations fs cfg init)
  ∧ "@b1" ∈ PatternGenerator.generate_leet_speak_patterns "ab1"
  ∧ ("@b1" ∉ wordlist (generate_dictionary fs cfg init).2).
Proof.
  intros cfg fs. split_and!.
  - apply (bool_decide_unpack _). by vm_compute.
  - apply (bool_decide_unpack _). by vm_compute.
  - apply (bool_decide_eq_false_1 _). by vm_compute.
Qed.

(** ** Saving: sorted, truncated, one candidate per line *)

Lemma string_app_assoc (s1 s2 s3 : string) :
  (s1 +:+ s2) +:+ s3 = s1 +:+ (s2 +:+ s3).
Proof.
  induction s1 as [|c s1 IH]; [done|].
  cbv [String.append] in *. fold String.append in *. by rewrite IH.
Qed.

Lemma string_app_empty_r (s : string) : s +:+ "" = s.
Proof.
  induction s as [|c s IH]; [done|].
  cbv [String.append] in *. fold String.append in *. by rewrite IH.
Qed.

(** The write loop produces the lines in order. *)
Lemma write_loop_file_text (lines : list string) (f : string) :
  foldl (λ f word, f +:+ (word +:+ Py.newline)) f lines
  = f +:+ file_text lines.
Proof.
  revert f. induction lines as [|word lines IH]; intros f; simpl.
  - by rewrite string_app_empty_r.
  - by rewrite IH, !string_app_assoc.
Qed.

Global Instance key_le_total : Total key_le.
Proof.
  intros x y. unfold key_le.
  destruct (Nat.lt_total (String.length x) (String.length y))
    as [?|[Heq|?]]; [by left; left| |by right; left].
  destruct (total String.le x y); [left|right]; right; by split.
Qed.

Global Instance key_le_trans : Transitive key_le.
Proof.
  intros x y z [?|[Hxy ?]] [?|[Hyz ?]]; unfold key_le.
  - left. lia.
  - left. lia.
  - left. lia.
  - right. split; [congruence|]. by etrans.
Qed.

Global Instance key_le_antisymm : AntiSymm (=) key_le.
Proof.
  intros x y [?|[? Hxy]] [?|[? Hyx]]; [lia..|].
  by apply (anti_symm String.le).
Qed.

Lemma save_to_file_unfold writable words_to_save max_words :
  save_to_file writable words_to_save max_words
  = if writable
    then Some (file_text (truncate max_words (merge_sort key_le words_to_save)))
    else None.
Proof.
  unfold save_to_file, truncate. destruct writable; [|done].
  rewrite write_loop_file_text. f_equal.
  destruct (Z.ltb_spec 0 max_words), (Z.ltb_spec max_words
    (len (merge_sort key_le words_to_save))); simpl;
    case_decide; done || lia.
Qed.

(** C6: whatever order the set is enumerated in, the text written is the
    same: the candidates sorted by length and then lexicographically, cut
    to the first [max_words] of them when [max_words > 0] and the set is
    larger, one per line; with [max_words = 0] all of them are
    written. *)
Theorem save_to_file_sorted_deterministic
    (candidates : gset string) (order1 order2 : list string) (max_words : Z) :
  order1 ≡ₚ elements candidates →
  order2 ≡ₚ elements candidates →
  ∃ sorted : list string,
    sorted ≡ₚ elements candidates
    ∧ StronglySorted key_le sorted
    ∧ save_to_file true order1 max_words
      = Some (file_text
                (if decide (0 < max_words < Z.of_nat (size candidates))%Z
                 then take (Z.to_nat max_words) sorted else sorted))
    ∧ save_to_file true order2 max_words
      = save_to_file true order1 max_words
    ∧ (max_words = 0%Z →
       save_to_file true order1 max_words = Some (file_text sorted)).
Proof.
  intros Hperm1 Hperm2.
  assert (merge_sort key_le order2 = merge_sort key_le order1) as Hsame.
  { apply (Sorted_unique key_le); [apply Sorted_merge_sort; apply _..|].
    by rewrite !merge_sort_Permutation, Hperm1, Hperm2. }
  assert (len (merge_sort key_le order1) = Z.of_nat (size candidates)) as Hlen.
  { unfold len, size, set_size. simpl.
    by rewrite merge_sort_Permutation, Hperm1. }
  exists (merge_sort key_le order1). split_and!.
  - by rewrite merge_sort_Permutation.
  - apply StronglySorted_merge_sort; apply _.
  - rewrite save_to_file_unfold. unfold truncate. rewrite Hlen. done.
  - by rewrite !save_to_file_unfold, Hsame.
  - intros ->. rewrite save_to_file_unfold. unfold truncate.
    case_decide; [lia|done].
Qed.

Lemma save_to_file_sorted_deterministic_witness :
  save_to_file true ["bb"; "a"; "ab"; "c"; "B"] 3
  = save_to_file true ["a"; "B"; "c"; "ab"; "bb"] 3.
Proof.
  destruct (save_to_file_sorted_deterministic
              (list_to_set ["a"; "B"; "c"; "ab"; "bb"])
              ["a"; "B"; "c"; "ab"; "bb"] ["bb"; "a"; "ab"; "c"; "B"] 3)
    as [sorted (_ & _ & _ & Hsame & _)].
  - apply NoDup_Permutation; [by vm_compute; repeat constructor; set_solver
                             |apply NoDup_elements|].
    intros x. rewrite elem_of_elements, elem_of_list_to_set. done.
  - apply NoDup_Permutation; [by vm_compute; repeat constructor; set_solver
                             |apply NoDup_elements|].
    intros x. rewrite elem_of_elements, !elem_of_list_to_set.
    rewrite !elem_of_cons. naive_solver.
  - exact Hsame.
Defined.


(** ** Leet variants *)

(** *** Characters of a string *)

Lemma contains_true c s :
  Py.contains c s = true ↔ c ∈ String.list_ascii_of_string s.
Proof.
  induction s as [|c' s IH]; simpl.
  - rewrite elem_of_nil. naive_solver.
  - rewrite elem_of_cons. case_decide; naive_solver.
Qed.

Lemma list_ascii_of_string_app s1 s2 :
  String.list_ascii_of_string (s1 +:+ s2)
  = String.list_ascii_of_string s1 ++ String.list_ascii_of_string s2.
Proof.
  induction s1 as [|c s1 IH]; [done|].
  cbv [String.append] in *. fold String.append in *. simpl. by rewrite IH.
Qed.

Lemma elem_of_replace x old new s :
  x ∈ String.list_ascii_of_string (Py.replace old new s)
  ↔ (x ≠ old ∧ x ∈ String.list_ascii_of_string s)
    ∨ (old ∈ String.list_ascii_of_string s ∧ x ∈ String.list_ascii_of_string new).
Proof.
  induction s as [|c s IH]; simpl.
  - rewrite !elem_of_nil. naive_solver.
  - case_decide as Hc; simpl.
    + subst c. rewrite list_ascii_of_string_app, elem_of_app, IH.
      rewrite !elem_of_cons. naive_solver.
    + rewrite !elem_of_cons, IH. naive_solver.
Qed.

Lemma elem_of_lower x s :
  x ∈ String.list_ascii_of_string (Py.lower s)
  ↔ ∃ y, y ∈ String.list_ascii_of_string s ∧ x = Py.lower_char y.
Proof.
  unfold Py.lower. induction s as [|c s IH]; simpl.
  - rewrite elem_of_nil. setoid_rewrite elem_of_nil. naive_solver.
  - rewrite elem_of_cons, IH. setoid_rewrite elem_of_cons. naive_solver.
Qed.

Lemma lower_char_not_upper c : Py.is_upper (Py.lower_char c) = false.
Proof. by destruct c as [[] [] [] [] [] [] [] []]. Qed.

Lemma lower_char_cases c :
  Py.lower_char c = c ∨ Py.is_upper c = true.
Proof. unfold Py.lower_char. destruct (Py.is_upper c); auto. Qed.

(** *** The leet table *)

(** No substitute of the table contains a key of the table or an
    uppercase letter. *)
Lemma leet_table_substitutes :
  Forall (λ entry : ascii * list string,
            Forall (λ r : string,
                      Forall (λ x, Py.is_upper x = false
                                   ∧ x ∉ config.LEET_SPEAK_MAP.*1)
                             (String.list_ascii_of_string r))
                   (tail entry.2))
         config.LEET_SPEAK_MAP.
Proof. apply (bool_decide_unpack _). by vm_compute. Qed.

Lemma leet_substitute_chars c subs r x :
  (c, subs) ∈ config.LEET_SPEAK_MAP → r ∈ tail subs →
  x ∈ String.list_ascii_of_string r →
  Py.is_upper x = false ∧ x ∉ config.LEET_SPEAK_MAP.*1.
Proof.
  intros Hentry Hr Hx.
  pose proof leet_table_substitutes as Htable.
  rewrite Forall_forall in Htable. specialize (Htable _ Hentry).
  rewrite Forall_forall in Htable. specialize (Htable _ Hr).
  rewrite Forall_forall in Htable. by apply Htable.
Qed.

Lemma leet_key_in_table c subs :
  (c, subs) ∈ config.LEET_SPEAK_MAP → c ∈ config.LEET_SPEAK_MAP.*1.
Proof. intros Hentry. apply list_elem_of_fmap. by exists (c, subs). Qed.

(** *** The result of [generate_leet_speak_patterns] *)

Lemma leet_inner_loop char word_lower replacements variations :
  foldl (λ variations replacement,
           let variant := Py.replace char replacement word_lower in
           variations ++ [variant])
        variations replacements
  = variations ++ ((λ r, Py.replace char r word_lower) <$> replacements).
Proof.
  revert variations.
  induction replacements as [|r rs IH]; intros variations; csimpl.
  - by rewrite app_nil_r.
  - by rewrite IH, <- app_assoc.
Qed.

Lemma leet_outer_loop word_lower (table : list (ascii * list string))
    variations :
  foldl (λ variations '(char, replacements),
           if Py.contains char word_lower
           then foldl (λ variations replacement,
                         let variant := Py.replace char replacement word_lower in
                         variations ++ [variant])
                      variations (tail replacements)
           else variations)
        variations table
  = variations ++
    (table ≫= λ entry,
       if Py.contains entry.1 word_lower
       then (λ r, Py.replace entry.1 r word_lower) <$> tail entry.2
       else []).
Proof.
  revert variations.
  induction table as [|[char replacements] table IH]; intros variations.
  - csimpl. by rewrite app_nil_r.
  - cbn [foldl]. rewrite IH. csimpl.
    destruct (Py.contains char word_lower).
    + by rewrite leet_inner_loop, <- app_assoc.
    + done.
Qed.

Lemma generate_leet_speak_patterns_eq word :
  PatternGenerator.generate_leet_speak_patterns word
  = word ::
    (config.LEET_SPEAK_MAP ≫= λ entry,
       if Py.contains entry.1 (Py.lower word)
       then (λ r, Py.replace entry.1 r (Py.lower word)) <$> tail entry.2
       else []).
Proof.
  unfold PatternGenerator.generate_leet_speak_patterns.
  by rewrite leet_outer_loop.
Qed.

Lemma elem_of_generate_leet_speak_patterns word v :
  v ∈ PatternGenerator.generate_leet_speak_patterns word
  ↔ v = word ∨ single_class_variant word v.
Proof.
  rewrite generate_leet_speak_patterns_eq, elem_of_cons, list_elem_of_bind.
  unfold single_class_variant. apply or_iff_compat_l. split.
  - intros [[char replacements] [Hv Hentry]]. simpl in Hv.
    destruct (Py.contains char (Py.lower word)) eqn:Hc;
      [|by apply elem_of_nil in Hv].
    apply list_elem_of_fmap in Hv as [r [-> Hr]].
    by exists char, replacements, r.
  - intros (char & replacements & r & Hentry & Hc & Hr & ->).
    exists (char, replacements). split; [|done]. simpl. rewrite Hc.
    apply list_elem_of_fmap. by exists r.
Qed.

(** *** Substituting several letter classes *)

Section substitute.
Context (word : string).

(** Every character of the substituted string comes from the original
    string or from one of the chosen substitutes. *)
Lemma elem_of_substitute choices s x :
  x ∈ String.list_ascii_of_string (substitute choices s) →
  x ∈ String.list_ascii_of_string s
  ∨ ∃ choice, choice ∈ choices ∧ x ∈ String.list_ascii_of_string choice.2.
Proof.
  revert s. induction choices as [|[char r] choices IH]; intros s; simpl.
  - by left.
  - intros [Hs|(choice & Hin & Hx)]%IH.
    + apply elem_of_replace in Hs as [[_ ?]|[_ ?]]; [by left|].
      right. exists (char, r). split; [left|done].
    + right. exists choice. split; [by right|done].
Qed.

(** A substituted letter does not occur in the result. *)
Lemma substituted_letter_gone choices s k :
  Forall (leet_choice word) choices →
  k ∈ choices.*1 →
  k ∉ String.list_ascii_of_string (substitute choices s).
Proof.
  intros Hchoices. revert s.
  induction Hchoices as [|[char r] choices Hchoice Hchoices IH];
    intros s Hk; [by apply elem_of_nil in Hk|].
  assert (k ∈ config.LEET_SPEAK_MAP.*1) as Hkey.
  { assert (Forall (leet_choice word) ((char, r) :: choices)) as Hall
      by by constructor.
    rewrite Forall_forall in Hall.
    apply list_elem_of_fmap in Hk as [choice [-> Hin]].
    destruct (Hall _ Hin) as (subs & Hentry & _ & _).
    by eapply leet_key_in_table. }
  assert (∀ choice, choice ∈ (char, r) :: choices →
            k ∉ String.list_ascii_of_string choice.2) as Hfresh.
  { intros choice Hin Hx.
    assert (Forall (leet_choice word) ((char, r) :: choices)) as Hall
      by by constructor.
    rewrite Forall_forall in Hall.
    destruct (Hall _ Hin) as (subs & Hentry & Hr & _).
    by destruct (leet_substitute_chars _ _ _ _ Hentry Hr Hx). }
  csimpl in Hk. apply elem_of_cons in Hk as [->|Hk]; [|by apply IH].
  simpl. intros [Hs|(choice & Hin & Hx)]%elem_of_substitute.
  - apply elem_of_replace in Hs as [[? _]|[_ Hx]]; [done|].
    by apply (Hfresh (char, r)); [left|].
  - by apply (Hfresh choice); [right|].
Qed.

(** The result has no uppercase letter. *)
Lemma substitute_not_upper choices x :
  Forall (leet_choice word) choices →
  x ∈ String.list_ascii_of_string (substitute choices (Py.lower word)) →
  Py.is_upper x = false.
Proof.
  intros Hchoices [Hx|(choice & Hin & Hx)]%elem_of_substitute.
  - apply elem_of_lower in Hx as [y [_ ->]]. apply lower_char_not_upper.
  - rewrite Forall_forall in Hchoices.
    destruct (Hchoices _ Hin) as (subs & Hentry & Hr & _).
    by destruct (leet_substitute_chars _ _ _ _ Hentry Hr Hx).
Qed.

Lemma multi_class_not_returned v :
  multi_class_variant word v →
  v ∉ PatternGenerator.generate_leet_speak_patterns word.
Proof.
  intros (choices & Hlen & Hnodup & Hchoices & ->).
  destruct choices as [|[c1 r1] [|[c2 r2] choices]]; simpl in Hlen; [lia..|].
  clear Hlen.
  assert (c1 ≠ c2) as Hne.
  { csimpl in Hnodup. apply NoDup_cons in Hnodup as [Hnotin _].
    intros ->. apply Hnotin. left. }
  set (all := (c1, r1) :: (c2, r2) :: choices) in *.
  assert (∀ k, k ∈ all.*1 →
            k ∈ String.list_ascii_of_string (Py.lower word)) as Hoccurs.
  { intros k [choice [-> Hin]]%list_elem_of_fmap.
    rewrite Forall_forall in Hchoices.
    destruct (Hchoices _ Hin) as (_ & _ & _ & Hc).
    by apply contains_true. }
  assert (c1 ∈ all.*1) as Hc1 by (csimpl; left).
  assert (c2 ∈ all.*1) as Hc2 by (csimpl; right; left).
  intros [Hword|Hsingle]%elem_of_generate_leet_speak_patterns.
  - (* the original word: it would have lost the letter [c1] without
       having any uppercase letter to lowercase into it *)
    pose proof (Hoccurs _ Hc1) as Hin.
    apply elem_of_lower in Hin as [y [Hy Hlow]].
    rewrite <- Hword in Hy.
    destruct (lower_char_cases y) as [Hsame|Hupper].
    + apply (substituted_letter_gone all (Py.lower word) c1 Hchoices Hc1).
      by rewrite Hlow, Hsame.
    + by rewrite (substitute_not_upper all y Hchoices Hy) in Hupper.
  - (* one class substituted: a second substituted letter would remain *)
    destruct Hsingle as (c & subs & r & _ & _ & _ & Heq).
    assert (∃ k, k ∈ all.*1 ∧ k ≠ c) as (k & Hk & Hkc).
    { destruct (decide (c1 = c)) as [->|]; [exists c2|exists c1]; done. }
    apply (substituted_letter_gone all (Py.lower word) k Hchoices Hk).
    rewrite Heq. apply elem_of_replace. left. split; [done|].
    by apply Hoccurs.
Qed.

End substitute.

(** The lowercase form is among the results only as the original word. *)
Lemma lower_returned_iff word :
  Py.lower word ∈ PatternGenerator.generate_leet_speak_patterns word
  ↔ Py.lower word = word.
Proof.
  rewrite elem_of_generate_leet_speak_patterns. split; [|by left].
  intros [?|(c & subs & r & Hentry & Hc & Hr & Heq)]; [done|].
  exfalso. apply contains_true in Hc.
  assert (c ∈ String.list_ascii_of_string
                (Py.replace c r (Py.lower word))) as Hin by by rewrite <- Heq.
  apply elem_of_replace in Hin as [[? _]|[_ Hx]]; [done|].
  destruct (leet_substitute_chars _ _ _ _ Hentry Hr Hx) as [_ Hkey].
  by apply Hkey, (leet_key_in_table c subs).
Qed.

(** C5, as amended: the result contains the original word; it contains
    the lowercase form only when the word is already lowercase; every
    other element is the lowercased word with all occurrences of exactly
    one letter of the leet map replaced by one of that letter's
    substitutes; and no element has two or more letter classes
    substituted at once. *)
Theorem leet_variants_single_class (word : string) :
  word ∈ PatternGenerator.generate_leet_speak_patterns word
  ∧ (Py.lower word ∈ PatternGenerator.generate_leet_speak_patterns word
     ↔ Py.lower word = word)
  ∧ (∀ v, v ∈ PatternGenerator.generate_leet_speak_patterns word
          ↔ v = word ∨ single_class_variant word v)
  ∧ (∀ v, multi_class_variant word v →
          v ∉ PatternGenerator.generate_leet_speak_patterns word).
Proof.
  split_and!.
  - apply elem_of_generate_leet_speak_patterns. by left.
  - apply lower_returned_iff.
  - apply elem_of_generate_leet_speak_patterns.
  - apply multi_class_not_returned.
Qed.

(** C5 as stated fails: the lowercase form of "Admin" is not among its
    leet variants. *)
Lemma leet_variants_lowercase_missing :
  ¬ (Py.lower "Admin"
     ∈ PatternGenerator.generate_leet_speak_patterns "Admin").
Proof. apply (bool_decide_eq_false_1 _). by vm_compute. Qed.

(** "p@ssw0rd" substitutes both [a] and [o] of "password". *)
Lemma password_multi_class : multi_class_variant "password" "p@ssw0rd".
Proof.
  exists [("a"%char, "@"); ("o"%char, "0")]. split_and!.
  - done.
  - apply (bool_decide_unpack _). by vm_compute.
  - repeat constructor.
    + exists ["a"; "@"; "4"]. split_and!; [|by vm_compute; set_solver|done].
      unfold config.LEET_SPEAK_MAP. set_solver.
    + exists ["o"; "0"]. split_and!; [|by vm_compute; set_solver|done].
      unfold config.LEET_SPEAK_MAP. set_solver.
  - done.
Defined.

Lemma leet_variants_single_class_witness :
  multi_class_variant "password" "p@ssw0rd"
  ∧ ("p@ssw0rd" ∉ PatternGenerator.generate_leet_speak_patterns "password").
Proof.
  split; [exact password_multi_class|].
  apply (leet_variants_single_class "password"), password_multi_class.
Defined.

(** The single-class variants of "password" are returned. *)
Lemma leet_variants_password :
  PatternGenerator.generate_leet_speak_patterns "password"
  = ["password"; "p@ssword"; "p4ssword"; "passw0rd"; "pa$$word"; "pa55word"].
Proof. by vm_compute. Qed.


(** * Further properties of the pattern functions *)

(** ** Lengths of strings *)

Lemma string_length_app (s1 s2 : string) :
  String.length (s1 +:+ s2) = String.length s1 + String.length s2.
Proof.
  induction s1 as [|c s1 IH]; [done|].
  cbv [String.append] in *. fold String.append in *. simpl. by rewrite IH.
Qed.

Lemma string_length_map_chars f s :
  String.length (Py.map_chars f s) = String.length s.
Proof. induction s as [|c s IH]; simpl; [done|]. by rewrite IH. Qed.

Lemma string_length_take n s :
  String.length (Py.take n s) = n `min` String.length s.
Proof.
  revert s. induction n as [|n IH]; intros [|c s]; simpl; [done..|].
  by rewrite IH.
Qed.

Lemma string_length_drop n s :
  String.length (Py.drop n s) = String.length s - n.
Proof.
  revert s. induction n as [|n IH]; intros [|c s]; simpl; [done..|lia|].
  by rewrite IH.
Qed.

Lemma string_take_all s : Py.take (String.length s) s = s.
Proof. induction s as [|c s IH]; simpl; [done|]. by rewrite IH. Qed.

Lemma string_length_slice (i j : Z) s :
  (0 ≤ i)%Z → (i ≤ j)%Z → (j ≤ Z.of_nat (String.length s))%Z →
  Z.of_nat (String.length (Py.slice i j s)) = (j - i)%Z.
Proof.
  intros Hi Hij Hj. unfold Py.slice.
  rewrite string_length_take, string_length_drop. lia.
Qed.

(** ** Loops that append one element per iteration *)

Lemma foldl_snoc_fmap {A B} (f : A → B) (l : list A) (acc : list B) :
  foldl (λ acc x, acc ++ [f x]) acc l = acc ++ (f <$> l).
Proof.
  revert acc. induction l as [|x l IH]; intros acc; csimpl.
  - by rewrite app_nil_r.
  - by rewrite IH, <- app_assoc.
Qed.

Lemma foldl_snoc_bind {A B C} (f : A → B → C) (inner : A → list B)
    (l : list A) (acc : list C) :
  foldl (λ acc x, foldl (λ acc y, acc ++ [f x y]) acc (inner x)) acc l
  = acc ++ (x ← l; f x <$> inner x).
Proof.
  revert acc. induction l as [|x l IH]; intros acc; csimpl.
  - by rewrite app_nil_r.
  - by rewrite IH, foldl_snoc_fmap, <- app_assoc.
Qed.

Lemma length_range lo hi : length (Py.range lo hi) = Z.to_nat (hi - lo).
Proof. unfold Py.range. apply length_seqZ. Qed.

Lemma elem_of_range x lo hi : x ∈ Py.range lo hi ↔ (lo ≤ x < hi)%Z.
Proof. unfold Py.range. rewrite elem_of_seqZ. lia. Qed.

Lemma range_empty lo hi : (hi ≤ lo)%Z → Py.range lo hi = [].
Proof.
  intros Hle. unfold Py.range, seqZ.
  by replace (Z.to_nat (hi - lo)) with 0 by lia.
Qed.

Lemma length_bind_const {A B} (f : A → list B) (l : list A) (n : nat) :
  (∀ x, x ∈ l → length (f x) = n) → length (l ≫= f) = length l * n.
Proof.
  induction l as [|x l IH]; intros Hf; csimpl; [done|].
  rewrite length_app, Hf, IH; [lia| |left].
  intros y Hy. apply Hf. by right.
Qed.

Lemma length_bind_le {A B} (f : A → list B) (g : A → nat) (l : list A) :
  (∀ x, x ∈ l → length (f x) ≤ g x) →
  length (l ≫= f) ≤ foldr (λ x n, g x + n) 0 l.
Proof.
  induction l as [|x l IH]; intros Hf; csimpl; [done|].
  rewrite length_app.
  assert (length (f x) ≤ g x) by (apply Hf; left).
  assert (length (l ≫= f) ≤ foldr (λ x n, g x + n) 0 l)
    by (apply IH; intros y Hy; apply Hf; by right).
  lia.
Qed.

(** ** Number sequences *)

Lemma generate_number_sequences_eq max_length :
  PatternGenerator.generate_number_sequences max_length
  = ((λ length, Py.join (Py.str <$> Py.range 0 length)) <$>
       Py.range 1 (max_length + 1))
    ++ (digit ← Py.range 0 10;
        (λ length, Py.mul (Py.str digit) length) <$>
          Py.range 2 (max_length + 1))
    ++ [ "007"; "69"; "420"; "666"; "777"; "888"; "999";
         "000"; "101"; "143"; "1337" ].
Proof.
  unfold PatternGenerator.generate_number_sequences.
  rewrite (foldl_snoc_fmap (λ length, Py.join (Py.str <$> Py.range 0 length))).
  rewrite (foldl_snoc_bind (λ digit length, Py.mul (Py.str digit) length)
                           (λ _, Py.range 2 (max_length + 1))).
  by rewrite app_nil_l, <- app_assoc.
Qed.

(** X1: [generate_number_sequences] returns [max_length] ascending runs,
    [max_length - 1] repeated runs for each of the ten digits, and the
    eleven notable numbers; for [max_length <= 0] only the notable
    numbers are left. *)
Theorem number_sequences_length (max_length : Z) :
  length (PatternGenerator.generate_number_sequences max_length)
  = Z.to_nat max_length + 10 * Z.to_nat (max_length - 1) + 11
  ∧ ((max_length ≤ 0)%Z →
     PatternGenerator.generate_number_sequences max_length
     = [ "007"; "69"; "420"; "666"; "777"; "888"; "999";
         "000"; "101"; "143"; "1337" ]).
Proof.
  rewrite generate_number_sequences_eq. split.
  - rewrite !length_app, length_fmap, length_range.
    rewrite (length_bind_const _ _ (Z.to_nat (max_length - 1))).
    + rewrite length_range. simpl. lia.
    + intros digit _. rewrite length_fmap, length_range. lia.
  - intros Hle.
    rewrite (range_empty 1), (range_empty 2) by lia.
    by vm_compute.
Qed.

Lemma number_sequences_length_witness :
  PatternGenerator.generate_number_sequences 0
  = [ "007"; "69"; "420"; "666"; "777"; "888"; "999";
      "000"; "101"; "143"; "1337" ].
Proof. apply (number_sequences_length 0). lia. Defined.

Lemma range_cons lo hi :
  (lo < hi)%Z → Py.range lo hi = lo :: Py.range (lo + 1) hi.
Proof.
  intros Hlt. unfold Py.range.
  rewrite seqZ_cons by lia. do 2 f_equal; lia.
Qed.

Lemma single_digit_cases d :
  (0 ≤ d < 10)%Z →
  d = 0%Z ∨ d = 1%Z ∨ d = 2%Z ∨ d = 3%Z ∨ d = 4%Z
  ∨ d = 5%Z ∨ d = 6%Z ∨ d = 7%Z ∨ d = 8%Z ∨ d = 9%Z.
Proof. lia. Qed.

(** X2: whatever [max_length] is, no entry of [generate_number_sequences]
    begins with "12": the ascending runs all start at 0, so "123", "1234"
    and "12345" are never produced. *)
Theorem number_sequences_never_start_at_one (max_length : Z) (rest : string) :
  String "1" (String "2" rest)
  ∉ PatternGenerator.generate_number_sequences max_length.
Proof.
  rewrite generate_number_sequences_eq, !elem_of_app.
  intros [Hrun|[Hrep|Hcommon]].
  - apply list_elem_of_fmap in Hrun as [len [Heq Hlen%elem_of_range]].
    rewrite range_cons in Heq by lia. csimpl in Heq.
    change (Py.str 0) with "0" in Heq.
    by cbv [Py.join foldr String.append] in Heq.
  - apply list_elem_of_bind in Hrep as [digit [Hrep Hdigit%elem_of_range]].
    apply list_elem_of_fmap in Hrep as [len [Heq Hlen%elem_of_range]].
    unfold Py.mul in Heq.
    destruct (Z.to_nat len) as [|[|n]] eqn:Hn; [lia..|].
    destruct (single_digit_cases digit Hdigit)
      as [->|[->|[->|[->|[->|[->|[->|[->|[->| ->]]]]]]]]];
      vm_compute in Heq; revert Heq; cbv [String.append]; congruence.
  - revert Hcommon. rewrite !elem_of_cons, elem_of_nil. naive_solver.
Qed.

(** ** Keyboard rows *)

Lemma row_substrings_eq row patterns :
  PatternGenerator.row_substrings row patterns
  = patterns ++
    (i ← Py.range 0 (Z.of_nat (String.length row) - 3);
     (λ j, Py.slice i j row) <$>
       Py.range (i + 4) (Z.of_nat (String.length row) + 1)).
Proof.
  unfold PatternGenerator.row_substrings.
  apply (foldl_snoc_bind (λ i j, Py.slice i j row)
           (λ i, Py.range (i + 4) (Z.of_nat (String.length row) + 1))).
Qed.

Lemma elem_of_row_substrings row x :
  x ∈ PatternGenerator.row_substrings row []
  ↔ ∃ i j, (0 ≤ i)%Z ∧ (i + 4 ≤ j)%Z ∧ (j ≤ Z.of_nat (String.length row))%Z
           ∧ x = Py.slice i j row.
Proof.
  rewrite row_substrings_eq, app_nil_l, list_elem_of_bind. split.
  - intros (i & Hx & Hi%elem_of_range).
    apply list_elem_of_fmap in Hx as (j & -> & Hj%elem_of_range).
    exists i, j. split_and!; [lia..|done].
  - intros (i & j & Hi & Hij & Hj & ->). exists i. split.
    + apply list_elem_of_fmap. exists j. split; [done|].
      apply elem_of_range. lia.
    + apply elem_of_range. lia.
Qed.

(** X3: every string the two inner loops of
    [generate_keyboard_walking_patterns] emit for a row is a slice
    [row[i:j]] of at least four and at most [len(row)] characters; a row
    shorter than four characters contributes no slice. *)
Theorem row_substrings_lengths (row x : string) :
  x ∈ PatternGenerator.row_substrings row [] →
  4 ≤ String.length x ≤ String.length row
  ∧ ∃ i j, (0 ≤ i)%Z ∧ (i + 4 ≤ j)%Z ∧ (j ≤ Z.of_nat (String.length row))%Z
           ∧ x = Py.slice i j row
           ∧ Z.of_nat (String.length x) = (j - i)%Z.
Proof.
  intros (i & j & Hi & Hij & Hj & ->)%elem_of_row_substrings.
  pose proof (string_length_slice i j row Hi ltac:(lia) Hj) as Hlen.
  split; [lia|]. exists i, j. by split_and!.
Qed.

Lemma row_substrings_lengths_witness :
  "sdfg" ∈ PatternGenerator.row_substrings "asdfghjkl" []
  ∧ 4 ≤ String.length "sdfg" ≤ String.length "asdfghjkl".
Proof.
  assert ("sdfg" ∈ PatternGenerator.row_substrings "asdfghjkl" []) as Hin.
  { apply (bool_decide_unpack _). by vm_compute. }
  split; [exact Hin|].
  apply (row_substrings_lengths "asdfghjkl" "sdfg" Hin).
Defined.

(** X4: a row of four or more characters is itself among its slices, so
    [generate_keyboard_walking_patterns], which appends the row before
    its slices, lists every keyboard row twice and its result is not free
    of duplicates. *)
Theorem keyboard_rows_listed_twice (row : string) :
  4 ≤ String.length row →
  row ∈ PatternGenerator.row_substrings row []
  ∧ ¬ NoDup (PatternGenerator.row_substrings row [row])
  ∧ ¬ NoDup PatternGenerator.generate_keyboard_walking_patterns.
Proof.
  intros Hlen.
  assert (row ∈ PatternGenerator.row_substrings row []) as Hin.
  { apply elem_of_row_substrings.
    exists 0%Z, (Z.of_nat (String.length row)). split_and!; [lia..|].
    unfold Py.slice. rewrite Nat2Z.id. simpl.
    by rewrite Nat.sub_0_r, string_take_all. }
  split_and!; [done| |].
  - rewrite row_substrings_eq. rewrite row_substrings_eq, app_nil_l in Hin.
    intros [Hnotin _]%NoDup_cons. done.
  - apply (bool_decide_eq_false_1 _). by vm_compute.
Qed.

Lemma keyboard_rows_listed_twice_witness :
  4 ≤ String.length "zxcvbnm"
  ∧ "zxcvbnm" ∈ PatternGenerator.row_substrings "zxcvbnm" [].
Proof.
  split; [simpl; lia|].
  apply (keyboard_rows_listed_twice "zxcvbnm"). simpl. lia.
Defined.

(** ** Case variants *)

Lemma lower_char_upper_char c : Py.lower_char (Py.upper_char c) = Py.lower_char c.
Proof. by destruct c as [[] [] [] [] [] [] [] []]. Qed.

Lemma lower_char_lower_char c : Py.lower_char (Py.lower_char c) = Py.lower_char c.
Proof. by destruct c as [[] [] [] [] [] [] [] []]. Qed.

Lemma lower_map_chars f s :
  (∀ c, Py.lower_char (f c) = Py.lower_char c) →
  Py.lower (Py.map_chars f s) = Py.lower s.
Proof.
  intros Hf. unfold Py.lower.
  induction s as [|c s IH]; simpl; [done|]. by rewrite Hf, IH.
Qed.

Lemma string_length_alternating i word :
  String.length (PatternGenerator.alternating_from i word) = String.length word.
Proof.
  revert i. induction word as [|c word IH]; intros i; simpl; [done|].
  by rewrite IH.
Qed.

Lemma lower_alternating i word :
  Py.lower (PatternGenerator.alternating_from i word) = Py.lower word.
Proof.
  unfold Py.lower. revert i.
  induction word as [|c word IH]; intros i; simpl; [done|].
  rewrite IH. f_equal.
  destruct (Nat.even i);
    [apply lower_char_upper_char|apply lower_char_lower_char].
Qed.

(** X5: every case variant has as many characters as the word and is the
    word up to letter case: lowercasing a variant gives the lowercased
    word. *)
Theorem case_variations_same_letters (word v : string) :
  v ∈ PatternGenerator.generate_case_variations word →
  String.length v = String.length word ∧ Py.lower v = Py.lower word.
Proof.
  unfold PatternGenerator.generate_case_variations. simpl.
  assert (v ∈ [Py.lower word; Py.upper word; Py.capitalize word;
               PatternGenerator.alternating_from 0 word] →
          String.length v = String.length word ∧ Py.lower v = Py.lower word)
    as Hall.
  { rewrite !elem_of_cons, elem_of_nil.
    intros [->|[->|[->|[->|[]]]]].
    - split; [apply string_length_map_chars|].
      apply lower_map_chars, lower_char_lower_char.
    - split; [apply string_length_map_chars|].
      apply lower_map_chars, lower_char_upper_char.
    - destruct word as [|c word]; [done|]. simpl. split.
      + f_equal. apply string_length_map_chars.
      + unfold Py.lower. simpl. rewrite lower_char_upper_char. f_equal.
        apply (lower_map_chars Py.lower_char), lower_char_lower_char.
    - split; [apply string_length_alternating|apply lower_alternating]. }
  destruct (String.length word <=? 10); [done|].
  intros Hin. apply Hall. revert Hin. rewrite !elem_of_cons. naive_solver.
Qed.

Lemma case_variations_same_letters_witness :
  "AdMiN" ∈ PatternGenerator.generate_case_variations "admin"
  ∧ String.length "AdMiN" = String.length "admin"
  ∧ Py.lower "AdMiN" = Py.lower "admin".
Proof.
  assert ("AdMiN" ∈ PatternGenerator.generate_case_variations "admin") as Hin.
  { apply (bool_decide_unpack _). by vm_compute. }
  split; [exact Hin|].
  apply (case_variations_same_letters "admin" "AdMiN" Hin).
Defined.

(** ** Special-character variants *)



(** ** Size of the leet variants *)

Lemma leet_table_single_characters :
  Forall (λ entry : ascii * list string,
            Forall (λ r : string, String.length r = 1) (tail entry.2))
         config.LEET_SPEAK_MAP.
Proof. apply (bool_decide_unpack _). by vm_compute. Qed.

Lemma string_length_replace_single old new s :
  String.length new = 1 →
  String.length (Py.replace old new s) = String.length s.
Proof.
  intros Hnew. induction s as [|c s IH]; simpl; [done|].
  case_decide; simpl; [rewrite string_length_app|]; lia.
Qed.

(** X7: the number of leet variants does not depend on the length of the
    word: the result starts with the original word and has at most
    thirteen entries, and it is the original word alone when the
    lowercased word contains none of the nine letters of the leet map. *)
Theorem leet_variants_bounded (word : string) :
  head (PatternGenerator.generate_leet_speak_patterns word) = Some word
  ∧ 1 ≤ length (PatternGenerator.generate_leet_speak_patterns word) ≤ 13
  ∧ ((∀ char, char ∈ config.LEET_SPEAK_MAP.*1 →
              Py.contains char (Py.lower word) = false) →
     PatternGenerator.generate_leet_speak_patterns word = [word]).
Proof.
  rewrite generate_leet_speak_patterns_eq. split; [done|split].
  - cbn [length].
    pose proof (length_bind_le
      (λ entry : ascii * list string,
         if Py.contains entry.1 (Py.lower word)
         then (λ r, Py.replace entry.1 r (Py.lower word)) <$> tail entry.2
         else [])
      (λ entry, length (tail entry.2)) config.LEET_SPEAK_MAP) as Hle.
    cbn [foldr config.LEET_SPEAK_MAP tail snd length] in Hle.
    split; [lia|]. apply le_n_S. etrans; [apply Hle|lia].
    intros [char replacements] _. cbn [fst snd].
    destruct (Py.contains char (Py.lower word)); [|simpl; lia].
    by rewrite length_fmap.
  - intros Hnone. f_equal.
    induction config.LEET_SPEAK_MAP as [|[char replacements] table IH];
      [done|].
    csimpl. rewrite (Hnone char) by (csimpl; left).
    apply IH. intros c Hc. apply Hnone. csimpl. by right.
Qed.

Lemma leet_variants_bounded_witness :
  (∀ char, char ∈ config.LEET_SPEAK_MAP.*1 →
           Py.contains char (Py.lower "XYZ") = false)
  ∧ PatternGenerator.generate_leet_speak_patterns "XYZ" = ["XYZ"].
Proof.
  assert (∀ char, char ∈ config.LEET_SPEAK_MAP.*1 →
                  Py.contains char (Py.lower "XYZ") = false) as Hnone.
  { intros char. cbn. rewrite !elem_of_cons, elem_of_nil.
    intros [->|[->|[->|[->|[->|[->|[->|[->|[->|[]]]]]]]]]]; reflexivity. }
  split; [exact Hnone|].
  apply (leet_variants_bounded "XYZ"), Hnone.
Defined.

(** X8: leet substitution keeps the length: every variant has as many
    characters as the word, because each substitute of the leet map is a
    single character. *)
Theorem leet_variants_same_length (word v : string) :
  v ∈ PatternGenerator.generate_leet_speak_patterns word →
  String.length v = String.length word.
Proof.
  intros [->|(char & replacements & r & Hentry & _ & Hr & ->)]
    %elem_of_generate_leet_speak_patterns; [done|].
  pose proof leet_table_single_characters as Htable.
  rewrite Forall_forall in Htable. specialize (Htable _ Hentry).
  rewrite Forall_forall in Htable. specialize (Htable _ Hr).
  rewrite string_length_replace_single by done.
  apply string_length_map_chars.
Qed.

Lemma leet_variants_same_length_witness :
  "pa$$word" ∈ PatternGenerator.generate_leet_speak_patterns "password"
  ∧ String.length "pa$$word" = String.length "password".
Proof.
  assert ("pa$$word"
          ∈ PatternGenerator.generate_leet_speak_patterns "password") as Hin.
  { apply (bool_decide_unpack _). by vm_compute. }
  split; [exact Hin|].
  apply (leet_variants_same_length "password" "pa$$word" Hin).
Defined.


(** * Further properties of the generator *)

(** ** Counting candidates *)

Lemma wordlist_add_words words self :
  wordlist (add_words words self)
  = wordlist self ∪ list_to_set (filter (λ w, w ≠ "") words).
Proof.
  apply set_eq. intros x.
  rewrite elem_of_add_words, elem_of_union, elem_of_list_to_set,
    list_elem_of_filter.
  naive_solver.
Qed.

Lemma size_add_word_le word self :
  size (wordlist (add_word word self)) ≤ S (size (wordlist self)).
Proof.
  rewrite add_word_unfold. case_decide; [lia|]. simpl.
  rewrite size_union_alt, size_singleton.
  assert (size (wordlist self ∖ {[word]}) ≤ size (wordlist self))
    by (apply subseteq_size; set_solver).
  lia.
Qed.

(** X9: however often a word is repeated, the candidate set counts it
    once: from a new generator, [add_words] leaves as many candidates as
    there are distinct non-empty words in its argument; from any
    generator it removes nothing and adds at most one candidate per
    word. *)
Theorem add_words_counts_distinct (words : list string) (self : t) :
  size (wordlist (add_words words init))
  = length (remove_dups (filter (λ w, w ≠ "") words))
  ∧ wordlist self ⊆ wordlist (add_words words self)
  ∧ size (wordlist (add_words words self))
    ≤ size (wordlist self) + length words.
Proof.
  split_and!.
  - rewrite wordlist_add_words. simpl. rewrite (left_id_L ∅ (∪)).
    rewrite <- (size_list_to_set (C:=gset string)) by apply NoDup_remove_dups.
    f_equal. apply set_eq. intros x.
    by rewrite !elem_of_list_to_set, elem_of_remove_dups.
  - intros x Hx. apply elem_of_add_words. by left.
  - revert self. induction words as [|word words IH]; intros self; simpl.
    + lia.
    + etrans; [apply IH|]. pose proof (size_add_word_le word self). lia.
Qed.

(** ** The date phase *)

Lemma length_generate_year_patterns start_year end_year :
  length (PatternGenerator.generate_year_patterns start_year end_year)
  = 2 * Z.to_nat (end_year - start_year + 1).
Proof.
  rewrite generate_year_patterns_bind.
  rewrite (length_bind_const _ _ 2) by done.
  rewrite length_range. lia.
Qed.

Lemma len_dates_words base_words start_year end_year :
  len (dates_words base_words start_year end_year)
  = (len base_words * (2 * Z.max 0 (end_year - start_year + 1) + 43))%Z.
Proof.
  unfold dates_words, len.
  rewrite (length_bind_const _ _
             (2 * Z.to_nat (end_year - start_year + 1) + 43)).
  - lia.
  - intros word _.
    rewrite !length_app, !length_fmap, !length_range,
      length_generate_year_patterns.
    simpl. lia.
Qed.

(** X10: the statistic of the date phase is the number of [add_word]
    calls, not of new candidates: for each seed word two per year of the
    range, twelve for the months and thirty-one for the days, whatever
    was already present; the other statistics are left alone. *)
Theorem generate_with_dates_statistic
    (base_words : list string) (start_year end_year : Z) (self : t) :
  let after := generate_with_dates base_words start_year end_year self in
  stats_date_patterns (stats after)
  = (len base_words * (2 * Z.max 0 (end_year - start_year + 1) + 43))%Z
  ∧ stats_base_words (stats after) = stats_base_words (stats self)
  ∧ stats_mutations (stats after) = stats_mutations (stats self)
  ∧ stats_total_generated (stats after) = stats_total_generated (stats self).
Proof.
  intros after. unfold after. rewrite generate_with_dates_eq. simpl.
  by rewrite len_dates_words.
Qed.

Lemma format_02d_nonempty z : Py.format_02d z ≠ "".
Proof.
  unfold Py.format_02d. cbn zeta.
  destruct (String.length (Py.str z) <? 2); [done|apply str_nonempty].
Qed.

Lemma elem_of_generate_with_dates
    (base_words : list string) (start_year end_year : Z) (self : t)
    (x : string) :
  x ∈ wordlist (generate_with_dates base_words start_year end_year self)
  ↔ x ∈ wordlist self
    ∨ ∃ word, word ∈ base_words
        ∧ ((∃ year,
              year ∈ PatternGenerator.generate_year_patterns start_year end_year
              ∧ x = word +:+ year ∧ x ≠ "")
           ∨ (∃ day, (1 ≤ day ≤ 31)%Z ∧ x = word +:+ Py.format_02d day)).
Proof.
  rewrite generate_with_dates_eq, wordlist_set_stats, elem_of_add_words.
  apply or_iff_compat_l. unfold dates_words.
  rewrite list_elem_of_bind. split.
  - intros [Hne (word & Hx & Hword)]. exists word. split; [done|].
    rewrite !elem_of_app, !list_elem_of_fmap in Hx.
    destruct Hx as [(year & -> & Hyear)|[(month & -> & Hm%elem_of_range)
                                         |(day & -> & Hd%elem_of_range)]].
    + left. by exists year.
    + right. exists month. split; [lia|done].
    + right. exists day. split; [lia|done].
  - intros (word & Hword & [(year & Hyear & -> & Hne)|(day & Hday & ->)]).
    + split; [done|]. exists word. split; [|done].
      rewrite !elem_of_app, !list_elem_of_fmap. left. by exists year.
    + split; [apply app_nonempty_r, format_02d_nonempty|].
      exists word. split; [|done].
      rewrite !elem_of_app, !list_elem_of_fmap. right. right.
      exists day. split; [done|]. apply elem_of_range. lia.
Qed.

(** X11: after the date phase the candidates are the earlier ones, the
    non-empty concatenations of a seed word with a year pattern, and
    every seed word followed by a two-digit day 01 to 31; the month loop
    adds nothing of its own, since its suffixes 01 to 12 are day suffixes
    too. *)
Theorem generate_with_dates_candidates
    (base_words : list string) (start_year end_year : Z) (self : t)
    (x : string) :
  x ∈ wordlist (generate_with_dates base_words start_year end_year self)
  ↔ x ∈ wordlist self
    ∨ ∃ word, word ∈ base_words
        ∧ ((∃ year,
              year ∈ PatternGenerator.generate_year_patterns start_year end_year
              ∧ x = word +:+ year ∧ x ≠ "")
           ∨ (∃ day, (1 ≤ day ≤ 31)%Z ∧ x = word +:+ Py.format_02d day)).
Proof. apply elem_of_generate_with_dates. Qed.

(** X12: with an inverted year range the date phase does not fail: it
    adds exactly the thirty-one day-suffixed forms of every seed word and
    records forty-three insertions per seed word. *)
Theorem generate_with_dates_inverted_range
    (base_words : list string) (start_year end_year : Z) (self : t)
    (x : string) :
  (end_year < start_year)%Z →
  (x ∈ wordlist (generate_with_dates base_words start_year end_year self)
   ↔ x ∈ wordlist self
     ∨ ∃ word day, word ∈ base_words ∧ (1 ≤ day ≤ 31)%Z
                   ∧ x = word +:+ Py.format_02d day)
  ∧ stats_date_patterns
      (stats (generate_with_dates base_words start_year end_year self))
    = (43 * len base_words)%Z.
Proof.
  intros Hlt. split.
  - rewrite elem_of_generate_with_dates.
    assert (PatternGenerator.generate_year_patterns start_year end_year = [])
      as ->.
    { rewrite generate_year_patterns_bind, range_empty by lia. done. }
    setoid_rewrite elem_of_nil. naive_solver.
  - rewrite generate_with_dates_eq. simpl. rewrite len_dates_words. lia.
Qed.

Lemma generate_with_dates_inverted_range_witness :
  (2023 < 2024)%Z
  ∧ stats_date_patterns
      (stats (generate_with_dates ["admin"; "user"] 2024 2023 init))
    = (43 * len ["admin"; "user"])%Z.
Proof.
  split; [lia|].
  apply (generate_with_dates_inverted_range ["admin"; "user"] 2024 2023 init "").
  lia.
Defined.

(** ** The username file *)

Lemma app_nonempty_l (s1 s2 : string) : s1 ≠ "" → s1 +:+ s2 ≠ "".
Proof. destruct s1; [done|]. intros _. by cbv [String.append]. Qed.

Lemma truthy_true s : Py.truthy s = true ↔ s ≠ "".
Proof. by destruct s. Qed.

Lemma contains_false c s :
  Py.contains c s = false ↔ c ∉ String.list_ascii_of_string s.
Proof.
  rewrite <- contains_true. destruct (Py.contains c s); naive_solver.
Qed.

Lemma elem_of_remove_char x old s :
  x ∈ String.list_ascii_of_string (Py.replace old "" s)
  ↔ x ≠ old ∧ x ∈ String.list_ascii_of_string s.
Proof.
  rewrite elem_of_replace. simpl. rewrite elem_of_nil. naive_solver.
Qed.

(** X13: reading a username file never loses anything: the statistics are
    untouched and every earlier candidate is still present; when the path
    does not exist or reading raises, the generator is exactly as
    before. *)
Theorem username_file_graceful
    (fs : filesystem) (filepath : string) (self : t) :
  stats (generate_from_username_file fs filepath self) = stats self
  ∧ wordlist self ⊆ wordlist (generate_from_username_file fs filepath self)
  ∧ (path_exists fs filepath = false ∨ read_lines fs filepath = None →
     generate_from_username_file fs filepath self = self).
Proof.
  rewrite generate_from_username_file_eq.
  destruct (path_exists fs filepath); [|naive_solver].
  destruct (read_lines fs filepath) as [lines|]; [|naive_solver].
  split_and!.
  - apply stats_add_words.
  - intros x Hx. apply elem_of_add_words. by left.
  - by intros [?|?].
Qed.

Lemma username_file_graceful_witness :
  let fs := {| path_exists := λ _, true; read_lines := λ _, None |} in
  (path_exists fs "users.txt" = false ∨ read_lines fs "users.txt" = None)
  ∧ generate_from_username_file fs "users.txt" init = init.
Proof.
  intros fs. split; [by right|].
  apply (username_file_graceful fs "users.txt" init). by right.
Defined.

(** X14: from a readable file, every line that is not blank contributes
    its trimmed text and that text followed by "123", "@123", "!" and
    "2024"; a file of blank lines only changes nothing. *)
Theorem username_file_candidates
    (fs : filesystem) (filepath : string) (lines : list string) (self : t) :
  path_exists fs filepath = true →
  read_lines fs filepath = Some lines →
  (∀ line, line ∈ lines → Py.strip line ≠ "" →
     ∀ x, x ∈ [ Py.strip line; Py.strip line +:+ "123";
                Py.strip line +:+ "@123"; Py.strip line +:+ "!";
                Py.strip line +:+ "2024" ] →
          x ∈ wordlist (generate_from_username_file fs filepath self))
  ∧ ((∀ line, line ∈ lines → Py.strip line = "") →
     generate_from_username_file fs filepath self = self).
Proof.
  intros Hexists Hread.
  rewrite generate_from_username_file_eq, Hexists, Hread. split.
  - intros line Hline Hne x Hx.
    assert (Py.strip line
            ∈ Py.strip <$> filter (λ line, Py.truthy (Py.strip line) = true)
                                  lines) as Hu.
    { apply list_elem_of_fmap. exists line. split; [done|].
      apply list_elem_of_filter. split; [by apply truthy_true|done]. }
    apply elem_of_add_words. right. split.
    + revert Hx. rewrite !elem_of_cons, elem_of_nil.
      intros [->|[->|[->|[->|[->|[]]]]]];
        [done|by apply app_nonempty_l..].
    + unfold username_words. apply elem_of_app.
      apply elem_of_cons in Hx as [->|Hx]; [by left|right].
      apply list_elem_of_bind. exists (Py.strip line). split; [|done].
      unfold username_decorations. apply elem_of_app. by left.
  - intros Hblank. unfold username_words.
    assert (filter (λ line, Py.truthy (Py.strip line) = true) lines = [])
      as ->; [|done].
    clear Hread. induction lines as [|line lines IH]; [done|].
    rewrite filter_cons. case_decide as Htruthy.
    + apply truthy_true in Htruthy. destruct Htruthy. apply Hblank. left.
    + apply IH. intros l Hl. apply Hblank. by right.
Qed.

Lemma username_file_candidates_witness :
  let fs := {| path_exists := λ _, true;
               read_lines := λ _, Some ["  j.doe  "; ""] |} in
  "j.doe@123" ∈ wordlist (generate_from_username_file fs "users.txt" init).
Proof.
  intros fs.
  apply (proj1 (username_file_candidates fs "users.txt" ["  j.doe  "; ""]
                  init eq_refl eq_refl) "  j.doe  ").
  - left.
  - by vm_compute.
  - apply (bool_decide_unpack _). by vm_compute.
Defined.


Lemma replace_absent old new s :
  Py.contains old s = false → Py.replace old new s = s.
Proof.
  induction s as [|c s IH]; simpl; [done|].
  case_decide; [done|]. intros Hs. by rewrite IH.
Qed.

(** X15: when a username contains a dot or an underscore, the form with
    all dots and underscores removed is added with the suffix "123", and
    on its own unless it is empty; a username with neither character has
    no such extra form. *)
Theorem username_cleaned_form
    (fs : filesystem) (filepath : string) (lines : list string) (self : t)
    (line : string) :
  path_exists fs filepath = true →
  read_lines fs filepath = Some lines →
  line ∈ lines →
  let username := Py.strip line in
  let cleaned := Py.replace "_" "" (Py.replace "." "" username) in
  let after := generate_from_username_file fs filepath self in
  (Py.contains "." username = true ∨ Py.contains "_" username = true →
   Py.contains "." cleaned = false ∧ Py.contains "_" cleaned = false
   ∧ cleaned +:+ "123" ∈ wordlist after
   ∧ (cleaned ≠ "" → cleaned ∈ wordlist after))
  ∧ (Py.contains "." username = false → Py.contains "_" username = false →
     cleaned = username).
Proof.
  intros Hexists Hread Hline username cleaned after. split.
  - intros Hspecial.
    assert (Py.contains "." cleaned = false) as Hdot.
    { apply contains_false. unfold cleaned.
      rewrite !elem_of_remove_char. intros (_ & Hneq & _). by apply Hneq. }
    assert (Py.contains "_" cleaned = false) as Hunder.
    { apply contains_false. unfold cleaned.
      rewrite !elem_of_remove_char. intros (Hneq & _). by apply Hneq. }
    assert (cleaned ≠ username) as Hdiff.
    { intros Heq. rewrite Heq in Hdot, Hunder.
      destruct Hspecial; congruence. }
    assert (username ≠ "") as Hne.
    { intros Heq. rewrite Heq in Hspecial. simpl in Hspecial.
      destruct Hspecial; congruence. }
    assert (∀ x, x ∈ [cleaned; cleaned +:+ "123"] → x ≠ "" →
                 x ∈ wordlist after) as Hadded.
    { intros x Hx Hxne. unfold after.
      rewrite generate_from_username_file_eq, Hexists, Hread.
      apply elem_of_add_words. right. split; [done|].
      unfold username_words. apply elem_of_app. right.
      apply list_elem_of_bind. exists username. split.
      - unfold username_decorations. fold cleaned.
        apply elem_of_app. right. by case_decide.
      - apply list_elem_of_fmap. exists line. split; [done|].
        apply list_elem_of_filter. split; [by apply truthy_true|done]. }
    split_and!; [done..| |].
    + apply Hadded; [right; left|]. by apply app_nonempty_r.
    + intros Hcne. apply Hadded; [left|done].
  - intros Hdot Hunder. unfold cleaned.
    by rewrite (replace_absent "." "" username), replace_absent.
Qed.

Lemma username_cleaned_form_witness :
  let fs := {| path_exists := λ _, true;
               read_lines := λ _, Some ["john_smith.x"] |} in
  "johnsmithx123"
  ∈ wordlist (generate_from_username_file fs "users.txt" init).
Proof.
  intros fs.
  destruct (username_cleaned_form fs "users.txt" ["john_smith.x"] init
              "john_smith.x" eq_refl eq_refl ltac:(left)) as [Hspecial _].
  destruct Hspecial as (_ & _ & Hin & _); [by left|].
  exact Hin.
Defined.

(** ** Statistics *)

Lemma min_from_spec x xs :
  (∀ y, y ∈ x :: xs → (Py.min_from x xs ≤ y)%Z)
  ∧ Py.min_from x xs ∈ x :: xs.
Proof.
  unfold Py.min_from. revert x.
  induction xs as [|y ys IH]; intros x; simpl.
  - split; [|left]. intros z ?%list_elem_of_singleton. lia.
  - destruct (IH (x `min` y)%Z) as [Hle Hin]. split.
    + intros z Hz. pose proof (Hle (x `min` y)%Z ltac:(left)).
      apply elem_of_cons in Hz as [->|Hz]; [lia|].
      apply elem_of_cons in Hz as [->|Hz]; [lia|].
      apply Hle. by right.
    + apply elem_of_cons in Hin as [->|Hin].
      * destruct (Z.min_spec x y) as [[_ ->]|[_ ->]]; [left|right; left].
      * right. by right.
Qed.

Lemma max_from_spec x xs :
  (∀ y, y ∈ x :: xs → (y ≤ Py.max_from x xs)%Z)
  ∧ Py.max_from x xs ∈ x :: xs.
Proof.
  unfold Py.max_from. revert x.
  induction xs as [|y ys IH]; intros x; simpl.
  - split; [|left]. intros z ?%list_elem_of_singleton. lia.
  - destruct (IH (x `max` y)%Z) as [Hle Hin]. split.
    + intros z Hz. pose proof (Hle (x `max` y)%Z ltac:(left)).
      apply elem_of_cons in Hz as [->|Hz]; [lia|].
      apply elem_of_cons in Hz as [->|Hz]; [lia|].
      apply Hle. by right.
    + apply elem_of_cons in Hin as [->|Hin].
      * destruct (Z.max_spec x y) as [[_ ->]|[_ ->]]; [right; left|left].
      * right. by right.
Qed.



Lemma get_statistics_spec (words : list string) :
  (get_statistics words = None ↔ words = [])
  ∧ ∀ r, get_statistics words = Some r →
      total_words r = len words
      ∧ (∀ w, w ∈ words →
           (min_length r ≤ Z.of_nat (String.length w) ≤ max_length r)%Z)
      ∧ (∃ w, w ∈ words ∧ Z.of_nat (String.length w) = min_length r)
      ∧ (∃ w, w ∈ words ∧ Z.of_nat (String.length w) = max_length r)
      ∧ ("" ∉ words → (1 ≤ min_length r)%Z).
Proof.
  destruct words as [|w ws]; [by split|].
  split; [by split|]. intros r [= <-]. cbn [total_words min_length max_length].
  set (size_of := λ w : string, Z.of_nat (String.length w)).
  change (Z.of_nat (String.length w) :: (size_of <$> ws))
    with (size_of <$> (w :: ws)).
  destruct (min_from_spec (size_of w) (size_of <$> ws)) as [Hmin_le Hmin_in].
  destruct (max_from_spec (size_of w) (size_of <$> ws)) as [Hmax_le Hmax_in].
  change (size_of w :: (size_of <$> ws)) with (size_of <$> (w :: ws)) in *.
  apply list_elem_of_fmap in Hmin_in as (wmin & Hmin_eq & Hmin_in).
  apply list_elem_of_fmap in Hmax_in as (wmax & Hmax_eq & Hmax_in).
  split_and!.
  - done.
  - intros x Hx. fold (size_of x).
    split; [apply Hmin_le|apply Hmax_le]; by apply list_elem_of_fmap_2.
  - by exists wmin.
  - by exists wmax.
  - intros Hne. fold (size_of w) in *. rewrite Hmin_eq.
    destruct wmin; [done|]. unfold size_of. simpl. lia.
Qed.

(** X16: [get_statistics] reports nothing for an empty list; otherwise
    the total is the number of words, every word's length lies between
    the reported minimum and maximum, both are the length of some word,
    and the minimum is at least 1 when no word is empty. *)
Theorem get_statistics_bounds (words : list string) :
  (get_statistics words = None ↔ words = [])
  ∧ ∀ r, get_statistics words = Some r →
      total_words r = len words
      ∧ (∀ w, w ∈ words →
           (min_length r ≤ Z.of_nat (String.length w) ≤ max_length r)%Z)
      ∧ (∃ w, w ∈ words ∧ Z.of_nat (String.length w) = min_length r)
      ∧ (∃ w, w ∈ words ∧ Z.of_nat (String.length w) = max_length r)
      ∧ ("" ∉ words → (1 ≤ min_length r)%Z).
Proof. apply get_statistics_spec. Qed.

Lemma get_statistics_bounds_witness :
  ∃ r, get_statistics ["admin"; "a1"; "qwerty"] = Some r
       ∧ min_length r = 2%Z ∧ max_length r = 6%Z.
Proof.
  destruct (get_statistics ["admin"; "a1"; "qwerty"]) as [r|] eqn:Hr;
    [|by vm_compute in Hr].
  exists r. split; [done|].
  pose proof (proj2 (get_statistics_bounds ["admin"; "a1"; "qwerty"]) r Hr)
    as (_ & _ & _ & _ & _).
  vm_compute in Hr. injection Hr as <-. done.
Defined.




(** ** A whole run *)

Lemma elem_of_phase_if (b : bool) (phase : t → t) (words : list string)
    self x :
  (∀ self, wordlist (phase self) = wordlist (add_words words self)) →
  x ∈ wordlist (if b then phase self else self)
  ↔ x ∈ wordlist self ∨ (x ≠ "" ∧ x ∈ if b then words else []).
Proof.
  intros Hphase. destruct b.
  - by rewrite Hphase, elem_of_add_words.
  - rewrite elem_of_nil. naive_solver.
Qed.

Lemma elem_of_username_step fs cfg self x :
  x ∈ wordlist
        (if option_string_truthy (username_file cfg)
            && path_exists fs (default "" (username_file cfg))
         then generate_from_username_file fs
                (default "" (username_file cfg)) self
         else self)
  ↔ x ∈ wordlist self ∨ (x ≠ "" ∧ x ∈ username_contribution fs cfg).
Proof.
  unfold username_contribution.
  destruct (option_string_truthy (username_file cfg)); simpl;
    [|rewrite elem_of_nil; naive_solver].
  rewrite generate_from_username_file_eq.
  destruct (path_exists fs (default "" (username_file cfg)));
    [|rewrite elem_of_nil; naive_solver].
  destruct (read_lines fs (default "" (username_file cfg))) as [lines|].
  - apply elem_of_add_words.
  - rewrite elem_of_nil. naive_solver.
Qed.

Lemma elem_of_phases_before_mutations fs cfg self x :
  x ∈ wordlist (phases_before_mutations fs cfg self)
  ↔ x ∈ wordlist self
    ∨ (x ≠ ""
       ∧ x ∈ default [] (base_words cfg)
             ++ username_contribution fs cfg
             ++ (if default false (use_dates cfg)
                 then dates_words (default [] (base_words cfg))
                        (default config.DEFAULT_START_YEAR (start_year cfg))
                        (default config.DEFAULT_END_YEAR (end_year cfg))
                 else [])
             ++ (if default false (use_common cfg)
                 then config.COMMON_PASSWORDS else [])
             ++ (if default false (use_keyboard cfg)
                 then config.KEYBOARD_PATTERNS else [])
             ++ (if default true (numbers (effective_mutations cfg))
                 then numbers_words (default [] (base_words cfg)) 999
                 else [])).
Proof.
  unfold phases_before_mutations. cbn zeta.
  rewrite (elem_of_phase_if _ (generate_with_numbers _ _)
             (numbers_words (default [] (base_words cfg)) 999))
    by (intros; by rewrite generate_with_numbers_eq).
  rewrite (elem_of_phase_if _ generate_keyboard_patterns
             config.KEYBOARD_PATTERNS) by done.
  rewrite (elem_of_phase_if _ generate_common_passwords
             config.COMMON_PASSWORDS) by done.
  rewrite (elem_of_phase_if _ (generate_with_dates _ _ _)
             (dates_words (default [] (base_words cfg))
                (default config.DEFAULT_START_YEAR (start_year cfg))
                (default config.DEFAULT_END_YEAR (end_year cfg))))
    by (intros; by rewrite generate_with_dates_eq).
  rewrite elem_of_username_step, generate_base_words_eq,
    wordlist_set_stats, elem_of_add_words, !elem_of_app.
  naive_solver.
Qed.

Lemma elem_of_generate_dictionary
    (fs : filesystem) (cfg : user_config) (self : t) (x : string) :
  default [] (base_words cfg) ≠ [] →
  x ∈ wordlist (generate_dictionary fs cfg self).2
  ↔ x ∈ wordlist self ∨ (x ≠ "" ∧ x ∈ generated_words fs cfg).
Proof.
  intros Hseeds. rewrite generate_dictionary_phases. cbn zeta.
  destruct (default [] (base_words cfg)) as [|seed seeds] eqn:Hbw; [done|].
  cbn [negb list_truthy snd]. rewrite wordlist_set_stats.
  rewrite (elem_of_phase_if _ (apply_special_characters _)
             (special_words (seed :: seeds)))
    by (intros; by rewrite apply_special_characters_eq).
  rewrite (elem_of_phase_if _ (apply_uppercase_variations _)
             (case_words (seed :: seeds)))
    by (intros; by rewrite apply_uppercase_variations_eq).
  rewrite (elem_of_phase_if _ (apply_leet_speak _)
             (leet_words (seed :: seeds)))
    by (intros; by rewrite apply_leet_speak_eq).
  rewrite elem_of_phases_before_mutations.
  unfold generated_words. cbn zeta. rewrite Hbw, !elem_of_app.
  naive_solver.
Qed.

(** X18: a run with seed words hands to [add_word] a list of words that
    the configuration and the files alone determine, phase after phase:
    afterwards the candidates are the earlier ones and the non-empty
    words of that list, so no phase depends on what another phase
    added. *)
Theorem generate_dictionary_candidates
    (fs : filesystem) (cfg : user_config) (self : t) (x : string) :
  default [] (base_words cfg) ≠ [] →
  x ∈ wordlist (generate_dictionary fs cfg self).2
  ↔ x ∈ wordlist self ∨ (x ≠ "" ∧ x ∈ generated_words fs cfg).
Proof. apply elem_of_generate_dictionary. Qed.

Lemma generate_dictionary_candidates_witness :
  let cfg := {| base_words := Some ["admin"]; mutations := None;
                username_file := None; use_dates := None;
                start_year := None; end_year := None;
                use_common := Some true; use_keyboard := None |} in
  let fs := {| path_exists := λ _, false; read_lines := λ _, None |} in
  "letmein" ∈ wordlist (generate_dictionary fs cfg init).2.
Proof.
  intros cfg fs.
  apply (generate_dictionary_candidates fs cfg init "letmein"); [done|].
  right. split; [done|].
  apply (bool_decide_unpack _). by vm_compute.
Defined.

(** X19: [generate_dictionary] never removes a candidate; with seed words
    the count it returns is the size of the candidate set and the
    recorded total; every non-empty seed word is a candidate afterwards,
    so one non-empty seed word makes the count positive. *)
Theorem generate_dictionary_count
    (fs : filesystem) (cfg : user_config) (self : t) :
  wordlist self ⊆ wordlist (generate_dictionary fs cfg self).2
  ∧ (default [] (base_words cfg) ≠ [] →
     (generate_dictionary fs cfg self).1
     = Z.of_nat (size (wordlist (generate_dictionary fs cfg self).2))
     ∧ stats_total_generated (stats (generate_dictionary fs cfg self).2)
       = (generate_dictionary fs cfg self).1
     ∧ ∀ seed, seed ∈ default [] (base_words cfg) → seed ≠ "" →
         seed ∈ wordlist (generate_dictionary fs cfg self).2
         ∧ (0 < (generate_dictionary fs cfg self).1)%Z).
Proof.
  split.
  - destruct (decide (default [] (base_words cfg) = [])) as [Hnil|Hseeds].
    + unfold generate_dictionary. by rewrite Hnil.
    + intros x Hx. apply elem_of_generate_dictionary; [done|]. by left.
  - intros Hseeds.
    assert ((generate_dictionary fs cfg self).1
            = Z.of_nat (size (wordlist (generate_dictionary fs cfg self).2)))
      as Hcount.
    { rewrite generate_dictionary_phases. cbn zeta.
      by destruct (default [] (base_words cfg)). }
    split_and!; [done| |].
    + rewrite generate_dictionary_phases. cbn zeta.
      by destruct (default [] (base_words cfg)).
    + intros seed Hseed Hne.
      assert (seed ∈ wordlist (generate_dictionary fs cfg self).2) as Hin.
      { apply elem_of_generate_dictionary; [done|]. right.
        split; [done|]. unfold generated_words. cbn zeta.
        apply elem_of_app. by left. }
      split; [done|]. rewrite Hcount.
      destruct (size (wordlist (generate_dictionary fs cfg self).2)) eqn:Hsize;
        [|lia].
      apply size_empty_iff in Hsize. set_solver.
Qed.

Lemma generate_dictionary_count_witness :
  let cfg := {| base_words := Some ["admin"];
                mutations := Some {| leetspeak := None; uppercase := None;
                                     numbers := Some false; special := None |};
                username_file := None; use_dates := None;
                start_year := None; end_year := None;
                use_common := None; use_keyboard := None |} in
  let fs := {| path_exists := λ _, false; read_lines := λ _, None |} in
  (0 < (generate_dictionary fs cfg init).1)%Z.
Proof.
  intros cfg fs.
  destruct (generate_dictionary_count fs cfg init) as [_ Hcount].
  destruct Hcount as (_ & _ & Hseed); [done|].
  apply (Hseed "admin"); [left|done].
Defined.

(** X20: enabling more can only add candidates: when every toggle that is
    in effect in one configuration is in effect in another with the same
    seed words, username file and year bounds, every candidate of the
    first run is a candidate of the second. *)
Theorem generate_dictionary_monotone_in_toggles
    (fs : filesystem) (cfg : user_config) (self : t)
    (dates1 common1 keyboard1 leet1 upper1 nums1 spec1 : option bool)
    (dates2 common2 keyboard2 leet2 upper2 nums2 spec2 : option bool) :
  default [] (base_words cfg) ≠ [] →
  enabled_le false dates1 dates2 →
  enabled_le false common1 common2 →
  enabled_le false keyboard1 keyboard2 →
  enabled_le false leet1 leet2 →
  enabled_le false upper1 upper2 →
  enabled_le true nums1 nums2 →
  enabled_le false spec1 spec2 →
  wordlist (generate_dictionary fs
              (with_toggles cfg dates1 common1 keyboard1
                            leet1 upper1 nums1 spec1) self).2
  ⊆ wordlist (generate_dictionary fs
                (with_toggles cfg dates2 common2 keyboard2
                              leet2 upper2 nums2 spec2) self).2.
Proof.
  intros Hseeds Hd Hc Hk Hl Hu Hn Hs x.
  rewrite !elem_of_generate_dictionary by done.
  intros [?|[Hne Hx]]; [by left|right]. split; [done|].
  revert Hx. unfold generated_words, username_contribution, effective_mutations.
  cbn [with_toggles base_words mutations username_file use_dates start_year
       end_year use_common use_keyboard leetspeak uppercase numbers special
       default from_option id].
  unfold enabled_le in *. rewrite !elem_of_app.
  intros [?|[?|[Hx|[Hx|[Hx|[Hx|[Hx|[Hx|Hx]]]]]]]]; [by left|by right; left|..].
  - destruct (default false dates1); [|by apply elem_of_nil in Hx].
    rewrite Hd by done. naive_solver.
  - destruct (default false common1); [|by apply elem_of_nil in Hx].
    rewrite Hc by done. naive_solver.
  - destruct (default false keyboard1); [|by apply elem_of_nil in Hx].
    rewrite Hk by done. naive_solver.
  - destruct (default true nums1); [|by apply elem_of_nil in Hx].
    rewrite Hn by done. naive_solver.
  - destruct (default false leet1); [|by apply elem_of_nil in Hx].
    rewrite Hl by done. naive_solver.
  - destruct (default false upper1); [|by apply elem_of_nil in Hx].
    rewrite Hu by done. naive_solver.
  - destruct (default false spec1); [|by apply elem_of_nil in Hx].
    rewrite Hs by done. naive_solver.
Qed.

Lemma generate_dictionary_monotone_in_toggles_witness :
  let cfg := {| base_words := Some ["ab"]; mutations := None;
                username_file := None; use_dates := None;
                start_year := None; end_year := None;
                use_common := None; use_keyboard := None |} in
  let fs := {| path_exists := λ _, false; read_lines := λ _, None |} in
  wordlist (generate_dictionary fs
              (with_toggles cfg None None None None None (Some false) None)
              init).2
  ⊆ wordlist (generate_dictionary fs
                (with_toggles cfg (Some true) None None (Some true) None None
                              None) init).2.
Proof.
  intros cfg fs.
  apply (generate_dictionary_monotone_in_toggles fs cfg init);
    unfold enabled_le; simpl; done.
Defined.

(** ** The saved file *)

(** X21: a bounded save keeps the smallest entries: the words written are
    distinct candidates, as many as the bound allows, and each of them
    precedes every candidate left out, in the order by length and then
    by the strings. *)
Theorem save_to_file_keeps_smallest
    (candidates : gset string) (order : list string) (max_words : Z) :
  order ≡ₚ elements candidates →
  ∃ written : list string,
    save_to_file true order max_words = Some (file_text written)
    ∧ NoDup written
    ∧ (∀ w, w ∈ written → w ∈ candidates)
    ∧ length written
      = (if decide (0 < max_words < Z.of_nat (size candidates))%Z
         then Z.to_nat max_words else size candidates)
    ∧ ∀ w w', w ∈ written → w' ∈ candidates → w' ∉ written → key_le w w'.
Proof.
  intros Hperm.
  set (sorted := merge_sort key_le order).
  assert (sorted ≡ₚ elements candidates) as Hsorted
    by (unfold sorted; by rewrite merge_sort_Permutation).
  assert (StronglySorted key_le sorted) as Hstrong
    by (apply StronglySorted_merge_sort; apply _).
  assert (NoDup sorted) as Hnodup
    by (rewrite Hsorted; apply NoDup_elements).
  assert (length sorted = size candidates) as Hlen
    by (by rewrite Hsorted).
  assert (∀ w, w ∈ sorted ↔ w ∈ candidates) as Hin
    by (intros w; by rewrite Hsorted, elem_of_elements).
  exists (truncate max_words sorted).
  rewrite save_to_file_unfold. split; [done|].
  unfold truncate, len. rewrite Hlen. case_decide as Hbound.
  - rewrite <- (take_drop (Z.to_nat max_words) sorted) in Hnodup, Hstrong, Hin.
    apply NoDup_app in Hnodup as (Hnodup & _ & _).
    apply StronglySorted_app in Hstrong as (Hle & _ & _).
    split_and!.
    + done.
    + intros w Hw. apply Hin, elem_of_app. by left.
    + rewrite length_take. lia.
    + intros w w' Hw Hw' Hout. apply Hle; [done|].
      apply Hin, elem_of_app in Hw' as [?|?]; done.
  - split_and!; [done|by intros w ?%Hin|done|].
    intros w w' _ Hw' Hout. by apply Hin in Hw'.
Qed.

Lemma save_to_file_keeps_smallest_witness :
  ∃ written : list string,
    save_to_file true (elements ({["bb"; "a"; "ccc"]} : gset string)) 2
    = Some (file_text written)
    ∧ length written = 2.
Proof.
  destruct (save_to_file_keeps_smallest {["bb"; "a"; "ccc"]}
              (elements ({["bb"; "a"; "ccc"]} : gset string)) 2)
    as (written & Hsave & _ & _ & Hlen & _); [reflexivity|].
  exists written. split; [exact Hsave|].
  rewrite Hlen. by vm_compute.
Defined.

Lemma file_text_cons word lines :
  file_text (word :: lines) = word +:+ Py.newline +:+ file_text lines.
Proof. done. Qed.

Lemma file_text_cons_nonempty word lines : file_text (word :: lines) ≠ "".
Proof. rewrite file_text_cons. by apply app_nonempty_r, app_nonempty_l. Qed.

Lemma first_line_inj word1 word2 rest1 rest2 :
  single_line word1 → single_line word2 →
  word1 +:+ Py.newline +:+ rest1 = word2 +:+ Py.newline +:+ rest2 →
  word1 = word2 ∧ rest1 = rest2.
Proof.
  unfold single_line, Py.newline. revert word2.
  induction word1 as [|c1 word1 IH]; intros [|c2 word2];
    cbv [String.append]; fold String.append; simpl.
  - intros _ _ [= ->]. done.
  - case_decide; [done|]. intros _ _ [= <- _]. done.
  - case_decide; [done|]. intros _ _ [= -> _]. done.
  - do 2 (case_decide; [done|]). intros H1 H2 [= -> Heq].
    destruct (IH word2 H1 H2 Heq) as [-> ->]. done.
Qed.

Lemma file_text_inj lines1 lines2 :
  Forall single_line lines1 → Forall single_line lines2 →
  file_text lines1 = file_text lines2 → lines1 = lines2.
Proof.
  intros Hlines1. revert lines2.
  induction Hlines1 as [|word1 lines1 Hword1 _ IH];
    intros lines2 Hlines2; destruct Hlines2 as [|word2 lines2 Hword2 Hlines2].
  - done.
  - intros Heq. symmetry in Heq. by apply file_text_cons_nonempty in Heq.
  - intros Heq. by apply file_text_cons_nonempty in Heq.
  - rewrite !file_text_cons. intros Heq.
    destruct (first_line_inj _ _ _ _ Hword1 Hword2 Heq) as [-> Hrest].
    f_equal. by apply IH.
Qed.

(** X22: an unbounded save loses nothing when no candidate contains a
    line break: two candidate sets that give the same file are the same
    set.  With a line break inside a candidate this fails, the sets
    {"a\nb"} and {"a", "b"} being written as the same text. *)
Theorem saved_file_determines_candidates
    (candidates1 candidates2 : gset string) (order1 order2 : list string) :
  order1 ≡ₚ elements candidates1 →
  order2 ≡ₚ elements candidates2 →
  (∀ w, w ∈ candidates1 ∪ candidates2 → single_line w) →
  save_to_file true order1 0 = save_to_file true order2 0 →
  candidates1 = candidates2.
Proof.
  intros Hperm1 Hperm2 Hsingle.
  rewrite !save_to_file_unfold. unfold truncate.
  do 2 (case_decide; [lia|]). intros [= Heq].
  apply file_text_inj in Heq.
  - apply set_eq. intros x.
    rewrite <- !elem_of_elements, <- Hperm1, <- Hperm2.
    by rewrite <- (merge_sort_Permutation key_le order1), Heq,
      merge_sort_Permutation.
  - apply Forall_forall. intros w Hw. apply Hsingle, elem_of_union. left.
    by rewrite merge_sort_Permutation, Hperm1, elem_of_elements in Hw.
  - apply Forall_forall. intros w Hw. apply Hsingle, elem_of_union. right.
    by rewrite merge_sort_Permutation, Hperm2, elem_of_elements in Hw.
Qed.

Lemma saved_file_determines_candidates_witness :
  ({["a"; "bc"]} : gset string) = {["bc"; "a"]}.
Proof.
  apply (saved_file_determines_candidates {["a"; "bc"]} {["bc"; "a"]}
           (elements ({["a"; "bc"]} : gset string))
           (elements ({["bc"; "a"]} : gset string)));
    [reflexivity..| |by vm_compute].
  intros w. rewrite !elem_of_union, !elem_of_singleton.
  intros [[->| ->]|[->| ->]]; reflexivity.
Defined.

Lemma saved_file_line_break_ambiguous :
  let line_break := String "a" (Py.newline +:+ "b") in
  save_to_file true [line_break] 0 = save_to_file true ["a"; "b"] 0
  ∧ ({[line_break]} : gset string) ≠ {["a"; "b"]}.
Proof.
  intros line_break. split; [by vm_compute|].
  intros Heq. assert ("b" ∈ ({[line_break]} : gset string)) as Hin
    by (rewrite Heq; set_solver).
  by apply elem_of_singleton in Hin.
Qed.


(** * The configuration helpers *)

Section load_custom_config.
Context {V : Type}.
Implicit Types (globals : gmap string V) (items : list (string * V)).

Lemma load_step_is_Some globals key value key' :
  is_Some ((if decide (is_Some (globals !! key))
            then <[key := value]> globals else globals) !! key')
  ↔ is_Some (globals !! key').
Proof.
  case_decide as Hkey; [|done].
  destruct (decide (key = key')) as [->|Hne].
  - rewrite lookup_insert_eq. split; [done|]. by eexists.
  - by rewrite lookup_insert_ne.
Qed.

Lemma load_items_cons key value items globals :
  config.load_custom_config (Some ((key, value) :: items)) globals
  = config.load_custom_config (Some items)
      (if decide (is_Some (globals !! key))
       then <[key := value]> globals else globals).
Proof. done. Qed.

Lemma load_items_is_Some items globals key :
  is_Some (config.load_custom_config (Some items) globals !! key)
  ↔ is_Some (globals !! key).
Proof.
  revert globals. induction items as [|[k v] items IH]; intros globals.
  - done.
  - simpl. etrans; [apply IH|]. apply load_step_is_Some.
Qed.

Lemma load_items_untouched items globals key :
  key ∉ items.*1 →
  config.load_custom_config (Some items) globals !! key = globals !! key.
Proof.
  revert globals. induction items as [|[k v] items IH]; intros globals Hkey.
  - done.
  - csimpl in Hkey. apply not_elem_of_cons in Hkey as [Hne Hkey].
    simpl. etrans; [by apply IH|].
    case_decide; [|done]. by rewrite lookup_insert_ne.
Qed.

(** X23: [load_custom_config] only overrides settings that exist: the set
    of setting names is the same afterwards, a name the file does not
    mention keeps its value, and an existing name the file mentions takes
    the value from the file; when the file cannot be read or parsed
    nothing changes. *)
Theorem load_custom_config_overrides_existing
    (parsed : option (list (string * V))) globals :
  dom (config.load_custom_config parsed globals) = dom globals
  ∧ (parsed = None → config.load_custom_config parsed globals = globals)
  ∧ ∀ items, parsed = Some items → NoDup items.*1 →
      (∀ key, key ∉ items.*1 →
         config.load_custom_config parsed globals !! key = globals !! key)
      ∧ (∀ key value, (key, value) ∈ items →
           config.load_custom_config parsed globals !! key
           = if decide (is_Some (globals !! key)) then Some value else None).
Proof.
  split_and!.
  - destruct parsed as [items|]; [|done].
    apply set_eq. intros key. rewrite !elem_of_dom. apply load_items_is_Some.
  - by intros ->.
  - intros items -> Hnodup. split; [intros key; apply load_items_untouched|].
    intros key value Hin. revert globals.
    induction items as [|[k v] items IH]; intros globals;
      [by apply elem_of_nil in Hin|].
    csimpl in Hnodup. apply NoDup_cons in Hnodup as [Hfresh Hnodup].
    apply elem_of_cons in Hin as [[= <- <-]|Hin].
    + rewrite load_items_cons, load_items_untouched by done.
      case_decide as Hkey.
      * by rewrite lookup_insert_eq.
      * by apply eq_None_not_Some.
    + rewrite load_items_cons, (IH Hnodup Hin).
      assert (key ≠ k) as Hne.
      { intros ->. apply Hfresh, list_elem_of_fmap. by exists (k, value). }
      destruct (decide (is_Some (globals !! k))).
      * rewrite lookup_insert_ne by done. done.
      * done.
Qed.

End load_custom_config.

Lemma load_custom_config_overrides_existing_witness :
  config.load_custom_config
    (Some [("MAX_WORKERS", 8%Z); ("UNKNOWN", 1%Z)])
    ({["MAX_WORKERS" := 4%Z]} : gmap string Z) !! "MAX_WORKERS"
  = Some 8%Z.
Proof.
  destruct (load_custom_config_overrides_existing
              (Some [("MAX_WORKERS", 8%Z); ("UNKNOWN", 1%Z)])
              ({["MAX_WORKERS" := 4%Z]} : gmap string Z))
    as (_ & _ & Hitems).
  destruct (Hitems _ eq_refl) as [_ Hset].
  - apply (bool_decide_unpack _). by vm_compute.
  - rewrite (Hset "MAX_WORKERS" 8%Z) by left. by vm_compute.
Defined.


(** * Further bounds *)

(** ** Years outside the 4-digit range *)

Lemma short_form_empty_table :
  Forall (λ year, Py.drop 2 (Py.str year) = "") (seqZ (-9) 109).
Proof. apply (bool_decide_unpack _). by vm_compute. Qed.

(** X24: for a year with at most two characters, from -9 to 99, the short
    form [str(year)[2:]] is the empty string: the year patterns of such a
    one-year range are the year itself followed by an empty pattern. *)
Theorem year_patterns_short_year (year : Z) :
  (-9 ≤ year ≤ 99)%Z →
  PatternGenerator.generate_year_patterns year year = [Py.str year; ""].
Proof.
  intros Hyear. rewrite generate_year_patterns_bind.
  rewrite range_cons, range_empty by lia. csimpl. do 2 f_equal.
  pose proof short_form_empty_table as Htable.
  rewrite Forall_forall in Htable. apply Htable, elem_of_seqZ. lia.
Qed.

Lemma year_patterns_short_year_witness :
  PatternGenerator.generate_year_patterns 24 24 = ["24"; ""].
Proof. apply (year_patterns_short_year 24). lia. Defined.

(** ** Lengths of the number sequences *)

Lemma string_length_repeat_copies s n :
  String.length (Py.repeat_copies s n) = n * String.length s.
Proof.
  induction n as [|n IH]; simpl; [done|].
  rewrite string_length_app, IH. lia.
Qed.

Lemma string_length_join_app parts1 parts2 :
  String.length (Py.join (parts1 ++ parts2))
  = String.length (Py.join parts1) + String.length (Py.join parts2).
Proof.
  unfold Py.join. induction parts1 as [|part parts1 IH]; simpl; [done|].
  rewrite !string_length_app, IH. lia.
Qed.

Lemma short_runs_table :
  Forall (λ length,
            String.length (Py.join (Py.str <$> Py.range 0 length))
            = Z.to_nat length)
         (seqZ 0 11).
Proof. apply (bool_decide_unpack _). by vm_compute. Qed.

Lemma digit_length_table :
  Forall (λ digit, String.length (Py.str digit) = 1) (seqZ 0 10).
Proof. apply (bool_decide_unpack _). by vm_compute. Qed.

Lemma str_two_characters z : (10 ≤ z)%Z → 2 ≤ String.length (Py.str z).
Proof.
  intros Hz. unfold Py.str.
  destruct (Z.ltb_spec z 0) as [?|_]; [lia|].
  assert (3 ≤ Z.log2 z)%Z as Hlog.
  { change 3%Z with (Z.log2 8). apply Z.log2_le_mono. lia. }
  destruct (Z.to_nat (Z.log2 z)) as [|fuel] eqn:Hfuel; [lia|].
  cbn [Py.str_digits].
  destruct (Z.eqb_spec (z `div` 10) 0) as [Hdiv|_].
  - apply Z.div_small_iff in Hdiv; lia.
  - destruct (((z `div` 10) `div` 10 =? 0)%Z); [simpl; lia|].
    etrans; [|apply str_digits_length]. simpl. lia.
Qed.

Lemma long_run_length (extra : nat) :
  10 + 2 * extra
  ≤ String.length
      (Py.join (Py.str <$> Py.range 0 (10 + Z.of_nat extra))).
Proof.
  assert (∀ start, (10 ≤ start)%Z →
            2 * extra
            ≤ String.length
                (Py.join (Py.str <$> seqZ start (Z.of_nat extra)))) as Htail.
  { induction extra as [|extra IH]; intros start Hstart; [simpl; lia|].
    rewrite Nat2Z.inj_succ, seqZ_cons by lia. csimpl.
    rewrite Z.pred_succ. unfold Py.join. cbn [foldr].
    rewrite string_length_app.
    pose proof (str_two_characters start Hstart).
    pose proof (IH (Z.succ start) ltac:(lia)) as Hrest.
    unfold Py.join in Hrest. lia. }
  unfold Py.range. rewrite Z.sub_0_r.
  rewrite (seqZ_app 0 10 (Z.of_nat extra)) by lia.
  rewrite fmap_app, string_length_join_app.
  specialize (Htail 10%Z ltac:(lia)). 
  change (0 + 10)%Z with 10%Z.
  assert (String.length (Py.join (Py.str <$> seqZ 0 10)) = 10) as ->
    by by vm_compute.
  lia.
Qed.

(** X25: [max_length] bounds the length of the entries only up to ten:
    for [max_length] from 4 to 10 no entry has more than [max_length]
    characters, but from 11 on the longest ascending run, which
    concatenates the numbers 0 to [max_length - 1], is longer than
    [max_length]. *)
Theorem number_sequences_entry_lengths (max_length : Z) :
  ((4 ≤ max_length ≤ 10)%Z →
   ∀ x, x ∈ PatternGenerator.generate_number_sequences max_length →
        (Z.of_nat (String.length x) ≤ max_length)%Z)
  ∧ ((11 ≤ max_length)%Z →
     ∃ x, x ∈ PatternGenerator.generate_number_sequences max_length
          ∧ (max_length < Z.of_nat (String.length x))%Z).
Proof.
  split.
  - intros Hmax x. rewrite generate_number_sequences_eq, !elem_of_app.
    intros [Hrun|[Hrep|Hcommon]].
    + apply list_elem_of_fmap in Hrun as [len [-> Hlen%elem_of_range]].
      pose proof short_runs_table as Htable.
      rewrite Forall_forall in Htable.
      rewrite (Htable len) by (apply elem_of_seqZ; lia). lia.
    + apply list_elem_of_bind in Hrep as [digit [Hrep Hdigit%elem_of_range]].
      apply list_elem_of_fmap in Hrep as [len [-> Hlen%elem_of_range]].
      pose proof digit_length_table as Htable.
      rewrite Forall_forall in Htable.
      unfold Py.mul.
      rewrite string_length_repeat_copies, (Htable digit)
        by (apply elem_of_seqZ; lia).
      lia.
    + revert Hcommon. rewrite !elem_of_cons, elem_of_nil.
      intros [->|[->|[->|[->|[->|[->|[->|[->|[->|[->|[->|[]]]]]]]]]]]];
        simpl; lia.
  - intros Hmax.
    exists (Py.join (Py.str <$> Py.range 0 max_length)). split.
    + rewrite generate_number_sequences_eq, elem_of_app. left.
      apply list_elem_of_fmap. exists max_length. split; [done|].
      apply elem_of_range. lia.
    + pose proof (long_run_length (Z.to_nat (max_length - 10))) as Hlong.
      replace (10 + Z.of_nat (Z.to_nat (max_length - 10)))%Z
        with max_length in Hlong by lia.
      lia.
Qed.

Lemma number_sequences_entry_lengths_witness :
  ∃ x, x ∈ PatternGenerator.generate_number_sequences 11
       ∧ (11 < Z.of_nat (String.length x))%Z.
Proof. apply (number_sequences_entry_lengths 11). lia. Defined.

(** ** The mutation statistic *)

Lemma length_special_char_variations word :
  length (PatternGenerator.generate_special_char_variations word) = 16.
Proof.
  unfold PatternGenerator.generate_special_char_variations.
  rewrite (foldl_ext_in _ (λ variations char,
             variations ++ [word +:+ char; char +:+ word]))
    by (intros; by rewrite <- app_assoc).
  by rewrite (foldl_append_bind (λ char, [word +:+ char; char +:+ word])).
Qed.

Lemma length_leet_speak_patterns word :
  1 ≤ length (PatternGenerator.generate_leet_speak_patterns word) ≤ 13.
Proof.
  rewrite generate_leet_speak_patterns_eq. cbn [length].
  pose proof (length_bind_le
    (λ entry : ascii * list string,
       if Py.contains entry.1 (Py.lower word)
       then (λ r, Py.replace entry.1 r (Py.lower word)) <$> tail entry.2
       else [])
    (λ entry, length (tail entry.2)) config.LEET_SPEAK_MAP) as Hle.
  cbn [foldr config.LEET_SPEAK_MAP tail snd length] in Hle.
  split; [lia|]. apply le_n_S. etrans; [apply Hle|lia].
  intros [char replacements] _. cbn [fst snd].
  destruct (Py.contains char (Py.lower word)); [|simpl; lia].
  by rewrite length_fmap.
Qed.

Lemma len_bind_bounds {A} (f : A → list string) (l : list A) (lo hi : Z) :
  (∀ x, x ∈ l → (lo ≤ len (f x) ≤ hi)%Z) →
  (lo * len l ≤ len (l ≫= f) ≤ hi * len l)%Z.
Proof.
  induction l as [|x l IH]; intros Hf.
  - unfold len. simpl. lia.
  - change ((x :: l) ≫= f) with (f x ++ (l ≫= f)).
    rewrite len_app, len_cons.
    pose proof (Hf x ltac:(left)).
    assert (lo * len l ≤ len (l ≫= f) ≤ hi * len l)%Z
      by (apply IH; intros y Hy; apply Hf; by right).
    lia.
Qed.

(** X26: the mutation statistic grows by the number of variants produced,
    duplicates included: by exactly 16 per word for the special
    characters, by 3 or 4 per word for the case variations and by 1 to 13
    per word for leet-speak. *)
Theorem mutation_statistic_increments (base_words : list string) (self : t) :
  stats_mutations (stats (apply_special_characters base_words self))
  = (stats_mutations (stats self) + 16 * len base_words)%Z
  ∧ (stats_mutations (stats self) + 3 * len base_words
     ≤ stats_mutations (stats (apply_uppercase_variations base_words self))
     ≤ stats_mutations (stats self) + 4 * len base_words)%Z
  ∧ (stats_mutations (stats self) + 1 * len base_words
     ≤ stats_mutations (stats (apply_leet_speak base_words self))
     ≤ stats_mutations (stats self) + 13 * len base_words)%Z.
Proof.
  rewrite apply_special_characters_eq, apply_uppercase_variations_eq,
    apply_leet_speak_eq.
  cbn [stats set_stats add_mutations stats_mutations].
  split; [|split].
  - pose proof (len_bind_bounds
      PatternGenerator.generate_special_char_variations base_words 16 16)
      as Hb.
    unfold special_words. 
    assert (∀ x, x ∈ base_words →
      (16 ≤ len (PatternGenerator.generate_special_char_variations x) ≤ 16)%Z)
      as Hf.
    { intros x _. unfold len.
      rewrite length_special_char_variations. lia. }
    specialize (Hb Hf). lia.
  - pose proof (len_bind_bounds
      PatternGenerator.generate_case_variations base_words 3 4) as Hb.
    unfold case_words.
    assert (∀ x, x ∈ base_words →
      (3 ≤ len (PatternGenerator.generate_case_variations x) ≤ 4)%Z) as Hf.
    { intros x _. unfold PatternGenerator.generate_case_variations, len.
      cbn zeta. destruct (String.length x <=? 10); simpl; lia. }
    specialize (Hb Hf). lia.
  - pose proof (len_bind_bounds
      PatternGenerator.generate_leet_speak_patterns base_words 1 13) as Hb.
    unfold leet_words.
    assert (∀ x, x ∈ base_words →
      (1 ≤ len (PatternGenerator.generate_leet_speak_patterns x) ≤ 13)%Z)
      as Hf.
    { intros x _. unfold len.
      pose proof (length_leet_speak_patterns x). lia. }
    specialize (Hb Hf). lia.
Qed.
